(** * important-react-topics: the example components, embedded and checked

    The repository is a set of React tutorials.  Its executable content is a
    handful of components: the context-api demo (ThemeProvider, AuthProvider,
    Navbar, ThemedButton, AuthButton), the CSS demos, the counters of the
    reconciliation / useMemo / useCallback notes, the Search input and the
    redux-thunk example (action creators, [fetchData], [dataReducer], App).

    Components are embedded as functions from the state their hooks hold to
    the view they return; event handlers are small programs ([Prog]) whose
    nodes are the calls the handlers make: a state setter or a store
    dispatch ([Update]), [console.log] ([Log]), [await] ([Await]) and
    [try]/[catch] ([Try]). *)

From stdpp Require Import gmap strings list fin_maps pretty.
From Stdlib Require Import ZArith Lia.

Set Warnings "-register-all".

Open Scope string_scope.
Open Scope Z_scope.

(** ** JavaScript values *)

Module Js.

(** The values the examples store or receive.  Numbers are the integers
    the counters hold; objects keep their fields in insertion order. *)
Inductive value : Type :=
| VUndefined
| VNull
| VBool (b : bool)
| VNum (n : Z)
| VStr (s : string)
| VArr (items : list value)
| VObj (fields : list (string * value)).

(** The result of the [typeof] operator. *)
Inductive type := TUndefined | TBoolean | TNumber | TString | TObject.



(** [v === s] for a string constant [s]: strict equality never coerces,
    so only a string with the same characters is equal. *)
Definition strict_eq_str (v : value) (s : string) : bool :=
  match v with
  | VStr s' => String.eqb s' s
  | _ => false
  end.

(** [n + 1] on the integers a counter started at 0 can hold.  Numbers are
    IEEE doubles: every integer up to 2^53 is exact, and 2^53 + 1 rounds
    back to 2^53. *)
Definition MAX_EXACT : Z := 2 ^ 53.

Definition add_one (n : Z) : Z :=
  if n <? MAX_EXACT then n + 1 else n.

(** An [Error] object; the examples read only its [message]. *)
Record Error := { message : string }.

(** A settled promise. *)
Inductive Settled (X : Type) : Type :=
| Fulfilled (x : X)
| Rejected (e : Error).
Arguments Fulfilled {X} x.
Arguments Rejected {X} e.

(** A [Response]: the examples only call [response.json()], whose outcome
    the response determines. *)
Record Response := { json : Settled value }.

(** The asynchronous operations the examples await: [fetch(url)] and
    [response.json()], and what each is fulfilled with. *)
Inductive Async :=
| Fetch (url : string)
| Json (response : Response).

Definition result (op : Async) : Type :=
  match op with
  | Fetch _ => Response
  | Json _ => value
  end.

(** The network: what [fetch(url)] settles to. *)
Definition Network := string -> Settled Response.

Definition settle (net : Network) (op : Async) : Settled (result op) :=
  match op with
  | Fetch url => net url
  | Json response => json response
  end.

End Js.

(** ** Handler programs *)

Section Programs.

Context {S : Type}.

(** The body of an event handler, an effect or a thunk, over the state [S]
    it can update.  [Update f] is a call of a [useState] setter (with an
    updater function, or a constant one for [setX(v)]) or of a store's
    [dispatch]; [Await] binds the fulfilled value and throws the rejection
    reason; [Try body handler k] is [try { body } catch (e) { handler e }]
    followed by [k]. *)
Inductive Prog : Type :=
| Done
| Update (f : S -> S) (k : Prog)
| Log (line : string) (k : Prog)
| Await (op : Js.Async) (k : Js.result op -> Prog)
| Try (body : Prog) (handler : Js.Error -> Prog) (k : Prog).

(** Sequential composition: [p; q]. *)
Fixpoint seq (p q : Prog) : Prog :=
  match p with
  | Done => q
  | Update f k => Update f (seq k q)
  | Log l k => Log l (seq k q)
  | Await op k => Await op (fun x => seq (k x) q)
  | Try b h k => Try b h (seq k q)
  end.

(** What a run leaves behind: the state and the console. *)
Record World := { store : S; console : list string }.

Inductive Completion := Normal | Threw (e : Js.Error).

(** [run net p w]: the program run to its end, every awaited promise
    settled by the network. *)
Fixpoint run (net : Js.Network) (p : Prog) (w : World) : World * Completion :=
  match p with
  | Done => (w, Normal)
  | Update f k => run net k {| store := f (store w); console := console w |}
  | Log l k => run net k {| store := store w; console := console w ++ [l] |}
  | Await op k =>
      match Js.settle net op with
      | Js.Fulfilled x => run net (k x) w
      | Js.Rejected e => (w, Threw e)
      end
  | Try b h k =>
      match run net b w with
      | (w', Normal) => run net k w'
      | (w', Threw e) =>
          match run net (h e) w' with
          | (w'', Normal) => run net k w''
          | thrown => thrown
          end
      end
  end.

(** [run_sync p w]: the synchronous part of a call, up to the first
    [await].  It returns the world at that point and what remains to run
    once the awaited promise settles ([Done] when the call has finished). *)
Fixpoint run_sync (p : Prog) (w : World) : World * Prog :=
  match p with
  | Done => (w, Done)
  | Update f k => run_sync k {| store := f (store w); console := console w |}
  | Log l k => run_sync k {| store := store w; console := console w ++ [l] |}
  | Await op k => (w, Await op k)
  | Try b h k =>
      match run_sync b w with
      | (w', Done) => run_sync k w'
      | (w', b') => (w', Try b' h k)
      end
  end.

(** A program awaits when some path through it reaches an [await]. *)
Inductive Awaits : Prog -> Prop :=
| Awaits_here op k : Awaits (Await op k)
| Awaits_update f k : Awaits k -> Awaits (Update f k)
| Awaits_log l k : Awaits k -> Awaits (Log l k)
| Awaits_await op k x : Awaits (k x) -> Awaits (Await op k)
| Awaits_body b h k : Awaits b -> Awaits (Try b h k)
| Awaits_handler b h k e : Awaits (h e) -> Awaits (Try b h k)
| Awaits_after b h k : Awaits k -> Awaits (Try b h k).

(** A program catches when it contains a [try]/[catch]. *)
Inductive Catches : Prog -> Prop :=
| Catches_here b h k : Catches (Try b h k)
| Catches_update f k : Catches k -> Catches (Update f k)
| Catches_log l k : Catches k -> Catches (Log l k)
| Catches_await op k x : Catches (k x) -> Catches (Await op k).

(** A handler that only calls setters and [console.log]. *)
Fixpoint straight_line (p : Prog) : bool :=
  match p with
  | Done => true
  | Update _ k => straight_line k
  | Log _ k => straight_line k
  | Await _ _ => false
  | Try _ _ _ => false
  end.

(** The state after a synchronous call of [p] in state [s]. *)
Definition call (p : Prog) (s : S) : S :=
  store (fst (run_sync p {| store := s; console := [] |})).

End Programs.

Arguments Prog S : clear implicits.
Arguments World S : clear implicits.

(** A setter of one piece of state, seen from a larger state that holds it:
    the setters of a provider reach only the provider's own state. *)
Fixpoint lift {S T : Type} (get : T -> S) (set : S -> T -> T) (p : Prog S) : Prog T :=
  match p with
  | Done => Done
  | Update f k => Update (fun t => set (f (get t)) t) (lift get set k)
  | Log l k => Log l (lift get set k)
  | Await op k => Await op (fun x => lift get set (k x))
  | Try b h k => Try (lift get set b) (fun e => lift get set (h e)) (lift get set k)
  end.

(** ** Views *)

(** A rendered [<button>]: its [onClick] handler, the [style] object and
    the text it shows. *)
Record button (S : Type) := {
  onClick : Prog S;
  style : list (string * string);
  children : string
}.
Arguments onClick {S} _.
Arguments style {S} _.
Arguments children {S} _.

(** A property of a style object ([undefined] when absent). *)
Fixpoint prop (name : string) (o : list (string * string)) : option string :=
  match o with
  | [] => None
  | (k, v) :: rest => if String.eqb k name then Some v else prop name rest
  end.

Definition map_button {S T : Type} (get : T -> S) (set : S -> T -> T)
    (b : button S) : button T :=
  {| onClick := lift get set (onClick b);
     style := style b;
     children := children b |}.

(** ** context-api/src/context/ThemeContext.jsx *)

Module ThemeContext.

(** The value the provider passes down: [{ theme, toggleTheme }]. *)
Record value := { theme : string; toggleTheme : Prog string }.

(** [useState("light")]. *)
Definition initial : string := "light".

(** [ThemeProvider], at the state its hook holds. *)
Definition ThemeProvider (theme : string) : value :=
  {| theme := theme;
     toggleTheme :=
       Update (fun prevTheme =>
                 if String.eqb prevTheme "light" then "dark" else "light")
              Done |}.

(** [useTheme] returns the value of the nearest provider. *)
Definition useTheme (provided : value) : value := provided.

(** The themes the provider can come to hold: the initial one, and the one
    after a call of the [toggleTheme] it provides. *)
Inductive Reachable : string -> Prop :=
| Reachable_initial : Reachable initial
| Reachable_toggle t :
    Reachable t -> Reachable (call (toggleTheme (ThemeProvider t)) t).

(** theme ∈ {"light", "dark"} *)
Definition valid (t : string) : Prop := t = "light" \/ t = "dark".

End ThemeContext.

(** ** context-api/src/context/AuthContext.jsx *)

Module AuthContext.

(** [{ isAuthenticated, login, logout }] *)
Record value := {
  isAuthenticated : bool;
  login : Prog bool;
  logout : Prog bool
}.

(** [useState(false)]. *)
Definition initial : bool := false.

Definition AuthProvider (isAuthenticated : bool) : value :=
  {| isAuthenticated := isAuthenticated;
     login := Update (fun _ => true) Done;
     logout := Update (fun _ => false) Done |}.

Definition useAuth (provided : value) : value := provided.

End AuthContext.

(** ** context-api/src/components *)

Module Components.

Import ThemeContext AuthContext.

(** ThemedButton.jsx *)
Definition ThemedButton (context : ThemeContext.value) : button string :=
  let theme := theme (useTheme context) in
  let toggleTheme := toggleTheme (useTheme context) in
  {| onClick := toggleTheme;
     style :=
       [ ("backgroundColor", if String.eqb theme "light" then "#fff" else "#333");
         ("color", if String.eqb theme "light" then "#000" else "#fff");
         ("padding", "10px 20px");
         ("border", "none");
         ("borderRadius", "5px");
         ("cursor", "pointer") ];
     children := "Toggle Theme (Current: " +:+ theme +:+ ")" |}.

(** AuthButton.jsx *)
Definition AuthButton (context : AuthContext.value) : button bool :=
  let isAuthenticated := isAuthenticated (useAuth context) in
  let login := login (useAuth context) in
  let logout := logout (useAuth context) in
  {| onClick := if isAuthenticated then logout else login;
     style :=
       [ ("padding", "10px 20px");
         ("margin", "10px");
         ("border", "none");
         ("borderRadius", "5px");
         ("backgroundColor", if isAuthenticated then "#d9534f" else "#5cb85c");
         ("color", "#fff");
         ("cursor", "pointer") ];
     children := if isAuthenticated then "Logout" else "Login" |}.

(** A rendered [<nav>]: its style, the [<h1>] and the [<p>]. *)
Record nav := {
  nav_style : list (string * string);
  h1 : string;
  p : string
}.

(** Navbar.jsx *)
Definition Navbar (themeContext : ThemeContext.value)
    (authContext : AuthContext.value) : nav :=
  let theme := theme (useTheme themeContext) in
  let isAuthenticated := isAuthenticated (useAuth authContext) in
  {| nav_style :=
       [ ("backgroundColor", if String.eqb theme "light" then "#f4f4f4" else "#222");
         ("color", if String.eqb theme "light" then "#000" else "#fff");
         ("padding", "10px");
         ("textAlign", "center") ];
     h1 := "My Themed App";
     p := if isAuthenticated then "Welcome, User!" else "Please log in." |}.

End Components.

(** ** context-api/src/App.jsx *)

Module ContextApp.

Import ThemeContext AuthContext Components.

(** The state of the mounted tree: one cell per provider. *)
Record State := { themeState : string; authState : bool }.

Definition initial : State :=
  {| themeState := ThemeContext.initial; authState := AuthContext.initial |}.

Definition set_theme (t : string) (s : State) : State :=
  {| themeState := t; authState := authState s |}.

Definition set_auth (b : bool) (s : State) : State :=
  {| themeState := themeState s; authState := b |}.

(** What [App] renders: the three components inside the two providers. *)
Record view := {
  navbar : nav;
  themedButton : button State;
  authButton : button State
}.

Definition App (s : State) : view :=
  let themeContext := ThemeProvider (themeState s) in
  let authContext := AuthProvider (authState s) in
  {| navbar := Navbar themeContext authContext;
     themedButton := map_button themeState set_theme (ThemedButton themeContext);
     authButton := map_button authState set_auth (AuthButton authContext) |}.

(** The source files of the demo. *)
Inductive File :=
| ThemeContext_jsx | AuthContext_jsx
| Navbar_jsx | ThemedButton_jsx | AuthButton_jsx | App_jsx.

(** The pieces of state and the file whose [useState] declares each. *)
Inductive Cell := theme_cell | isAuthenticated_cell.

Definition declared_in (c : Cell) : File :=
  match c with
  | theme_cell => ThemeContext_jsx
  | isAuthenticated_cell => AuthContext_jsx
  end.

(** The components that consume the contexts. *)
Inductive Component := CNavbar | CThemedButton | CAuthButton.

Definition defined_in (c : Component) : File :=
  match c with
  | CNavbar => Navbar_jsx
  | CThemedButton => ThemedButton_jsx
  | CAuthButton => AuthButton_jsx
  end.

(** What a component shows on screen: its style and its text. *)
Definition rendered (c : Component) (s : State) : list (string * string) * list string :=
  match c with
  | CNavbar => (nav_style (navbar (App s)), [h1 (navbar (App s)); p (navbar (App s))])
  | CThemedButton => (style (themedButton (App s)), [children (themedButton (App s))])
  | CAuthButton => (style (authButton (App s)), [children (authButton (App s))])
  end.

(** A click on a component: the [onClick] of the element it rendered in the
    current state; [<nav>] has none. *)
Definition click (c : Component) (s : State) : State :=
  match c with
  | CNavbar => s
  | CThemedButton => call (onClick (themedButton (App s))) s
  | CAuthButton => call (onClick (authButton (App s))) s
  end.

(** The value of a piece of state. *)
Definition read (c : Cell) (s : State) : Js.value :=
  match c with
  | theme_cell => Js.VStr (themeState s)
  | isAuthenticated_cell => Js.VBool (authState s)
  end.

End ContextApp.

(** ** ways-to-manipulate-css-dynamically-in-react/src/components *)

(** What the CSS demos render: the attribute or text that depends on the
    state, and the toggle button. *)
Record demo (S : Type) := {
  shows : list (string * string);
  toggle : button S
}.
Arguments shows {S} _.
Arguments toggle {S} _.

Module CssDemos.

(** Using_Inline_Style.jsx *)
Definition Using_Inline_Style (isActive : bool) : demo bool :=
  let styles :=
    [ ("color", if isActive then "red" else "blue");
      ("fontSize", "20px");
      ("padding", "10px") ] in
  {| shows := styles;
     toggle := {| onClick := Update (fun _ => negb isActive) Done;
                  style := [];
                  children := "Toggle Color" |} |}.

(** Using_CSS_Classes.jsx *)
Definition Using_CSS_Classes (isDark : bool) : demo bool :=
  {| shows := [ ("className", if isDark then "dark-mode" else "light-mode") ];
     toggle := {| onClick := Update (fun _ => negb isDark) Done;
                  style := [];
                  children := "Toggle Theme" |} |}.

(** Using_CSS_Module.jsx; [styles.success] and [styles.error] are the class
    names of CSSModule.module.css. *)
Definition Using_CSS_Modules (isSuccess : bool) : demo bool :=
  {| shows := [ ("className", if isSuccess then "success" else "error");
                ("text", "Message: " +:+ (if isSuccess then "Success" else "Error")) ];
     toggle := {| onClick := Update (fun _ => negb isSuccess) Done;
                  style := [];
                  children := "Toggle" |} |}.

(** Using_Styled_Components.jsx; the styled [Button] computes its
    background from the [primary] prop. *)
Definition Using_Styled_Components (primary : bool) : demo bool :=
  {| shows := [ ("background-color", if primary then "blue" else "gray") ];
     toggle := {| onClick := Update (fun _ => negb primary) Done;
                  style := [];
                  children := "Toggle Style" |} |}.

(** Using_Tailwind_CSS.jsx *)
Definition Using_Tailwind_CSS (isActive : bool) : demo bool :=
  {| shows := [ ("className",
                 (if isActive then "bg-green-500" else "bg-gray-200") +:+ " text-blue-500") ];
     toggle := {| onClick := Update (fun _ => negb isActive) Done;
                  style := [];
                  children := "Toggle Size" |} |}.

(** Using_Emotion.jsx *)
Definition Using_Emotion (isActive : bool) : demo bool :=
  {| shows := [ ("color", if isActive then "red" else "blue");
                ("font-size", "20px");
                ("padding", "10px") ];
     toggle := {| onClick := Update (fun _ => negb isActive) Done;
                  style := [];
                  children := "Toggle Color" |} |}.

(** The components App.jsx puts on the page, each in its own file and each
    with its own [useState] cell. *)
Inductive Component :=
| Inline_Style | CSS_Classes | CSS_Module | Styled_Components | Emotion.

#[global] Instance Component_eq_dec : EqDecision Component.
Proof. solve_decision. Defined.

Definition render (c : Component) : bool -> demo bool :=
  match c with
  | Inline_Style => Using_Inline_Style
  | CSS_Classes => Using_CSS_Classes
  | CSS_Module => Using_CSS_Modules
  | Styled_Components => Using_Styled_Components
  | Emotion => Using_Emotion
  end.

(** [useState(...)] of each component. *)
Definition initial (c : Component) : bool :=
  match c with
  | CSS_Module => true
  | _ => false
  end.

(** The state of the page: the cell of every mounted component. *)
Definition Page := Component -> bool.

Definition initial_page : Page := initial.

(** A click on the toggle button of [c]: the handler runs on the cell of
    [c]; the other components keep theirs. *)
Definition click (c : Component) (page : Page) : Page :=
  fun c' =>
    if decide (c' = c)
    then call (onClick (toggle (render c (page c)))) (page c)
    else page c'.

(** What a component shows on screen. *)
Definition rendered (c : Component) (page : Page) : list (string * string) :=
  shows (render c (page c)).

End CssDemos.

(** ** The counters of the notes *)

(** Reconciliation note: [Counter]. *)
Module Counter.

Record view := { h1 : string; increment : button Z }.

Definition initial : Z := 0.

Definition Counter (count : Z) : view :=
  {| h1 := "Counter: " +:+ pretty count;
     increment := {| onClick := Update (fun _ => Js.add_one count) Done;
                     style := [];
                     children := "Increment" |} |}.

End Counter.

(** useMemo note: [WithUseMemo]. *)
Module UseMemo.

Record State := { count : Z; number : Z }.

Record view := { h2 : string; increase : button State }.

Definition initial : State := {| count := 0; number := 10 |}.

(** [setCount(v)] writes the count cell only. *)
Definition setCount (v : Z) (s : State) : State :=
  {| count := v; number := number s |}.

Definition WithUseMemo (s : State) : view :=
  let computedValue := number s * 2 in
  {| h2 := "Expensive Computation: " +:+ pretty computedValue;
     increase := {| onClick := Update (setCount (Js.add_one (count s))) Done;
                    style := [];
                    children := "Increase Count (" +:+ pretty (count s) +:+ ")" |} |}.

End UseMemo.

(** useCallback note: [Parent] and [Child]. *)
Module UseCallback.

Record view := { h2 : string; increment : button Z; child : button Z }.

Definition initial : Z := 0.

(** Child.js *)
Definition Child (handleClick : Prog Z) : button Z :=
  {| onClick := handleClick; style := []; children := "Click Me" |}.

Definition Parent (count : Z) : view :=
  let handleClick := Log "Button clicked!" Done in
  {| h2 := "Count: " +:+ pretty count;
     increment := {| onClick := Update (fun _ => Js.add_one count) Done;
                     style := [];
                     children := "Increment" |};
     child := Child handleClick |}.

(** useCallback note: [Search].  The [<input>] has an [onChange] and no
    [onClick]; the handler receives [e.target.value]. *)
Record input := { onChange : string -> Prog string; placeholder : string }.

Definition initial_query : string := "".

Definition Search (query : string) : input :=
  let fetchResults (searchTerm : string) : Prog string :=
    Log ("Fetching results for: " +:+ searchTerm) Done in
  let handleChange (value : string) : Prog string :=
    seq (Update (fun _ => value) Done) (fetchResults value) in
  {| onChange := handleChange; placeholder := "Search..." |}.

End UseCallback.

(** ** important-react-topics.wiki/redux-thunk.md *)

Module ReduxThunk.

Import Js.

(** A plain object used as a record of named fields: actions and the state
    of the reducer. *)
Abbreviation object := (gmap string value).

(** [o.k]: the field, or [undefined] when the object has none. *)
Definition get (o : object) (k : string) : value := default VUndefined (o !! k).

(** actionTypes.js *)
Definition FETCH_DATA_REQUEST : string := "FETCH_DATA_REQUEST".
Definition FETCH_DATA_SUCCESS : string := "FETCH_DATA_SUCCESS".
Definition FETCH_DATA_FAILURE : string := "FETCH_DATA_FAILURE".

(** actions.js: the action creators. *)
Definition fetchDataRequest : object :=
  {[ "type" := VStr FETCH_DATA_REQUEST ]}.

Definition fetchDataSuccess (data : value) : object :=
  <[ "payload" := data ]> {[ "type" := VStr FETCH_DATA_SUCCESS ]}.

Definition fetchDataFailure (error : value) : object :=
  <[ "payload" := error ]> {[ "type" := VStr FETCH_DATA_FAILURE ]}.

(** The thunk action creator.  The function it returns receives [dispatch]
    from the middleware. *)
Definition fetchData {S : Type} (dispatch : object -> Prog S) : Prog S :=
  seq (dispatch fetchDataRequest)
      (Try
         (Await (Fetch "https://api.example.com/data") (fun response =>
          Await (Json response) (fun data =>
          dispatch (fetchDataSuccess data))))
         (fun error => dispatch (fetchDataFailure (VStr (message error))))
         Done).

(** reducer.js *)
Definition initialState : object :=
  <[ "error" := VStr "" ]>
    (<[ "data" := VArr [] ]>
       {[ "loading" := VBool false ]}).

(** [state = initialState]: an [undefined] state ([None]) takes the
    default.  The [switch] compares [action.type] with [===]. *)
Definition dataReducer (state : option object) (action : object) : object :=
  let state := default initialState state in
  let type := get action "type" in
  if strict_eq_str type FETCH_DATA_REQUEST then
    <[ "loading" := VBool true ]> state
  else if strict_eq_str type FETCH_DATA_SUCCESS then
    <[ "error" := VStr "" ]>
      (<[ "data" := get action "payload" ]>
         (<[ "loading" := VBool false ]> state))
  else if strict_eq_str type FETCH_DATA_FAILURE then
    <[ "error" := get action "payload" ]>
      (<[ "data" := VArr [] ]>
         (<[ "loading" := VBool false ]> state))
  else state.

(** store.js: [combineReducers({ data: dataReducer })] keeps the reducer's
    state under the key [data]. *)
Record RootState := { data : object }.

Definition rootReducer (state : option RootState) (action : object) : RootState :=
  {| data := dataReducer (data <$> state) action |}.

(** [createStore] initialises the state by dispatching a private action
    whose type no reducer knows. *)
Definition INIT : object := {[ "type" := VStr "@@redux/INIT" ]}.

Definition initialStore : RootState := rootReducer None INIT.

(** [store.dispatch] of a plain action: the state becomes what the root
    reducer returns. *)
Definition dispatch (action : object) : Prog RootState :=
  Update (fun state => rootReducer (Some state) action) Done.

(** With the thunk middleware, [dispatch(fetchData())] calls the returned
    function with [dispatch]. *)
Definition dispatch_fetchData : Prog RootState := fetchData dispatch.

(** The same thunk with a [dispatch] that records the actions it is given. *)
Definition record (action : object) : Prog (list object) :=
  Update (fun log => (log ++ [action])%list) Done.

(** ToBoolean, as the conditional operator applies it. *)
Definition truthy (v : value) : bool :=
  match v with
  | VUndefined | VNull => false
  | VBool b => b
  | VNum n => negb (n =? 0)
  | VStr s => negb (String.eqb s "")
  | VArr _ | VObj _ => true
  end.

(** App.js: what the component shows for the state it selects.  [None]
    when rendering throws ([data.map] on a value that is no array). *)
Inductive view :=
| Loading
| ErrorText (error : value)
| Items (items : list value).

Definition App (state : RootState) : option view :=
  let dataState := data state in
  if truthy (get dataState "loading") then Some Loading
  else if truthy (get dataState "error") then Some (ErrorText (get dataState "error"))
  else match get dataState "data" with
       | VArr items => Some (Items items)
       | _ => None
       end.

(** The effect [App] runs after it mounts. *)
Definition App_effect : Prog RootState := dispatch_fetchData.

(** Some networks. *)
Definition offline : Network :=
  fun _ => Rejected {| message := "Failed to fetch" |}.

Definition serving (body : value) : Network :=
  fun _ => Fulfilled {| json := Fulfilled body |}.

Definition serving_garbage : Network :=
  fun _ => Fulfilled {| json := Rejected {| message := "Unexpected token" |} |}.

(** What the two awaits of [fetchData] deliver together: the parsed body,
    or the reason [fetch] or [response.json()] rejected with. *)
Definition fetched (net : Network) : Settled value :=
  match net "https://api.example.com/data" with
  | Fulfilled response => json response
  | Rejected e => Rejected e
  end.

End ReduxThunk.

(** ** The examples as transition systems *)

(** The JSX attribute, or hook, that starts a handler. *)
Inductive Trigger :=
| Click    (* onClick of a <button> *)
| Change   (* onChange of an <input> *)
| Mount.   (* useEffect after the component mounts *)

(** An example: the state its hooks (or its store) hold, the events it
    binds, the handler the render in a given state attaches to each, and
    the pieces of state as JavaScript values. *)
Record Example := {
  State : Type;
  initial : State;
  Event : Type;
  trigger : Event -> Trigger;
  handler : State -> Event -> Prog State;
  cells : State -> list Js.value
}.

(** The state after event [e] is handled in state [s], awaited promises
    settled by [net]. *)
Definition fire (ex : Example) (net : Js.Network) (e : Event ex) (s : State ex)
    : State ex :=
  store (fst (run net (handler ex s e) {| store := s; console := [] |})).

Inductive reachable (ex : Example) : State ex -> Prop :=
| reachable_initial : reachable ex (initial ex)
| reachable_fire net e s : reachable ex s -> reachable ex (fire ex net e s).

Module Examples.

Import Js.

Definition ThemedButton : Example :=
  {| State := string;
     initial := ThemeContext.initial;
     Event := unit;
     trigger := fun _ => Click;
     handler := fun theme _ =>
       onClick (Components.ThemedButton (ThemeContext.ThemeProvider theme));
     cells := fun theme => [VStr theme] |}.

Definition AuthButton : Example :=
  {| State := bool;
     initial := AuthContext.initial;
     Event := unit;
     trigger := fun _ => Click;
     handler := fun isAuthenticated _ =>
       onClick (Components.AuthButton (AuthContext.AuthProvider isAuthenticated));
     cells := fun isAuthenticated => [VBool isAuthenticated] |}.

Definition Counter : Example :=
  {| State := Z;
     initial := Counter.initial;
     Event := unit;
     trigger := fun _ => Click;
     handler := fun count _ => onClick (Counter.increment (Counter.Counter count));
     cells := fun count => [VNum count] |}.

Definition UseMemo : Example :=
  {| State := UseMemo.State;
     initial := UseMemo.initial;
     Event := unit;
     trigger := fun _ => Click;
     handler := fun s _ => onClick (UseMemo.increase (UseMemo.WithUseMemo s));
     cells := fun s => [VNum (UseMemo.count s); VNum (UseMemo.number s)] |}.

(** The two buttons [Parent] renders: its own and the one of [Child]. *)
Inductive ParentButton := Increment | ClickMe.

Definition UseCallback : Example :=
  {| State := Z;
     initial := UseCallback.initial;
     Event := ParentButton;
     trigger := fun _ => Click;
     handler := fun count b =>
       match b with
       | Increment => onClick (UseCallback.increment (UseCallback.Parent count))
       | ClickMe => onClick (UseCallback.child (UseCallback.Parent count))
       end;
     cells := fun count => [VNum count] |}.

(** A CSS demo: a boolean cell and the toggle button. *)
Definition css (component : bool -> demo bool) (init : bool) : Example :=
  {| State := bool;
     initial := init;
     Event := unit;
     trigger := fun _ => Click;
     handler := fun b _ => onClick (toggle (component b));
     cells := fun b => [VBool b] |}.

Definition css_demos : list Example :=
  [ css CssDemos.Using_Inline_Style false;
    css CssDemos.Using_CSS_Classes false;
    css CssDemos.Using_CSS_Modules true;
    css CssDemos.Using_Styled_Components false;
    css CssDemos.Using_Tailwind_CSS false;
    css CssDemos.Using_Emotion false ].

(** The event of [Search] carries the text typed into the input. *)
Definition Search : Example :=
  {| State := string;
     initial := UseCallback.initial_query;
     Event := string;
     trigger := fun _ => Change;
     handler := fun query value => UseCallback.onChange (UseCallback.Search query) value;
     cells := fun query => [VStr query] |}.

Definition ReduxThunk : Example :=
  {| State := ReduxThunk.RootState;
     initial := ReduxThunk.initialStore;
     Event := unit;
     trigger := fun _ => Mount;
     handler := fun _ _ => ReduxThunk.App_effect;
     cells := fun s => (map_to_list (ReduxThunk.data s)).*2 |}.

(** The examples whose click flips a value. *)
Definition toggles : list Example :=
  [ThemedButton; AuthButton] ++ css_demos.

(** The examples whose click counts. *)
Definition counters : list Example := [Counter; UseMemo; UseCallback].

(** The examples the specification names: ThemedButton, AuthButton,
    Counter, the useMemo demo, the useCallback demo, the CSS demos. *)
Definition named : list Example := toggles ++ counters.

(** All the examples embedded here. *)
Definition corpus : list Example := named ++ [Search; ReduxThunk].

End Examples.

(** ** Sequences of events *)

(** The state after the events [es], handled one after the other, each by
    the handler of the render that follows the previous one. *)
Definition fires (ex : Example) (net : Js.Network) (es : list (Event ex))
    (s : State ex) : State ex :=
  fold_left (fun s e => fire ex net e s) es s.

(** ** redux-thunk.md: what App.js puts on screen *)

Module ReduxRender.

Import Js ReduxThunk.

(** The own property [k] of an object literal. *)
Fixpoint own (fields : list (string * value)) (k : string) : value :=
  match fields with
  | [] => VUndefined
  | (k', v) :: rest => if String.eqb k' k then v else own rest k
  end.

(** [item.k] for the names [App] reads, [id] and [name], which no string,
    number, boolean or array has.  [None] is the TypeError of reading a
    property of [null] or [undefined]. *)
Definition member (item : value) (k : string) : option value :=
  match item with
  | VUndefined | VNull => None
  | VObj fields => Some (own fields k)
  | _ => Some VUndefined
  end.

(** [{v}] as the child of an element: strings and numbers are text,
    booleans, [null] and [undefined] show nothing, an array shows its
    items, and a plain object is refused ([None]: React throws).  A
    number shows as its decimal digits, which is what JavaScript prints
    for the integers of the exact range. *)
Fixpoint child_text (v : value) : option string :=
  match v with
  | VStr s => Some s
  | VNum n => Some (pretty n)
  | VUndefined | VNull | VBool _ => Some ""
  | VArr items =>
      (fix texts (l : list value) : option string :=
         match l with
         | [] => Some ""
         | x :: rest =>
             match child_text x, texts rest with
             | Some a, Some b => Some (a +:+ b)
             | _, _ => None
             end
         end) items
  | VObj _ => None
  end.

(** [<li key={item.id}>{item.name}</li>] *)
Record li := { key : value; text : string }.

Definition list_item (item : value) : option li :=
  id ← member item "id";
  name ← member item "name";
  text ← child_text name;
  Some {| key := id; text := text |}.

(** What [App] returns: a paragraph or the list. *)
Inductive tree :=
| P (text : string)
| UL (items : list li).

(** The body of [App] for the [dataState] it selected.  [None] when
    rendering throws. *)
Definition render (dataState : object) : option tree :=
  if truthy (get dataState "loading") then Some (P "Loading...")
  else if truthy (get dataState "error") then
    text ← child_text (get dataState "error");
    Some (P ("Error: " +:+ text))
  else match get dataState "data" with
       | VArr items => UL <$> mapM list_item items
       | _ => None
       end.

(** [useSelector((state) => state.data)] *)
Definition AppTree (state : RootState) : option tree := render (data state).

End ReduxRender.

(** ** redux-thunk.md, answer to Q2: dataReducer.js *)

Module DataReducerJs.

Import Js ReduxThunk.

Definition initialState : object :=
  <[ "error" := VNull ]>
    (<[ "data" := VArr [] ]>
       {[ "loading" := VBool false ]}).

Definition dataReducer (state : option object) (action : object) : object :=
  let state := default initialState state in
  let type := get action "type" in
  if strict_eq_str type FETCH_DATA_REQUEST then
    <[ "error" := VNull ]> (<[ "loading" := VBool true ]> state)
  else if strict_eq_str type FETCH_DATA_SUCCESS then
    <[ "data" := get action "payload" ]> (<[ "loading" := VBool false ]> state)
  else if strict_eq_str type FETCH_DATA_FAILURE then
    <[ "error" := get action "payload" ]> (<[ "loading" := VBool false ]> state)
  else state.

End DataReducerJs.

(** A store that keeps the state of one reducer: [dispatch] replaces the
    state by what the reducer returns. *)
Definition dispatch_to (reducer : option (gmap string Js.value) -> gmap string Js.value -> gmap string Js.value)
    (action : gmap string Js.value) : Prog (gmap string Js.value) :=
  Update (fun state => reducer (Some state) action) Done.

(** [dispatch(fetchData())] on such a store, run to its end. *)
Definition fetch_into (reducer : option (gmap string Js.value) -> gmap string Js.value -> gmap string Js.value)
    (net : Js.Network) (state : gmap string Js.value) : gmap string Js.value :=
  store (fst (run net (ReduxThunk.fetchData (dispatch_to reducer))
                {| store := state; console := [] |})).

(** ** hooks/useContext()_using_class_base_comp.md: the class components *)

Module ClassContext.

Record value := { theme : string; toggleTheme : Prog string }.

(** [state = { theme: "light" }] *)
Definition initial : string := "light".

(** [ThemeProvider], rendered with [this.state.theme].  [toggleTheme]
    passes [setState] an object computed from [this.state], which is the
    rendered state until the next render. *)
Definition ThemeProvider (state_theme : string) : value :=
  {| theme := state_theme;
     toggleTheme :=
       Update (fun _ => if String.eqb state_theme "light" then "dark" else "light")
              Done |}.

(** [ThemedButton], with [this.context] the value of the provider. *)
Definition ThemedButton (context : value) : button string :=
  let theme := theme context in
  let toggleTheme := toggleTheme context in
  {| onClick := toggleTheme;
     style :=
       [ ("backgroundColor", if String.eqb theme "light" then "#fff" else "#333");
         ("color", if String.eqb theme "light" then "#000" else "#fff") ];
     children := "Toggle Theme (Current: " +:+ theme +:+ ")" |}.

Definition App (state_theme : string) : button string :=
  ThemedButton (ThemeProvider state_theme).

End ClassContext.

(** ** Ways to manipulate CSS, part B: styling through [useRef] *)

Module RefStyling.

(** A DOM element, as far as the two examples touch it: its inline style,
    the declarations by the name they were assigned under (the longhands
    a browser derives from a shorthand such as [padding] are not
    modelled), and its class list (an ordered set of tokens). *)
Record element := { inline : gmap string string; classList : list string }.

(** The [<div>] of the first example, as React creates it. *)
Definition styled_div : element :=
  {| inline := <[ "border" := "1px solid black" ]> {[ "padding" := "10px" ]};
     classList := [] |}.

(** [changeStyle], on what [divRef.current] holds. *)
Definition changeStyle (current : option element) : option element :=
  match current with
  | Some div =>
      Some {| inline :=
                <[ "borderRadius" := "10px" ]>
                  (<[ "padding" := "20px" ]>
                     (<[ "color" := "white" ]>
                        (<[ "backgroundColor" := "lightblue" ]> (inline div))));
              classList := classList div |}
  | None => None
  end.

(** [classList.toggle(token)]: the token is removed when present and
    appended when absent. *)
Definition toggle (token : string) (tokens : list string) : list string :=
  if bool_decide (token ∈ tokens)
  then filter (fun t => t ≠ token) tokens
  else (tokens ++ [token])%list.

(** The [<div className="box">] of the second example. *)
Definition box : element := {| inline := ∅; classList := ["box"] |}.

(** [toggleClass], on what [boxRef.current] holds. *)
Definition toggleClass (current : option element) : option element :=
  match current with
  | Some div =>
      Some {| inline := inline div; classList := toggle "active" (classList div) |}
  | None => None
  end.

End RefStyling.

(** ** doubts-and-solutions/solutions/Ans-5.md: Timer *)

Module Timer.

(** The component and the part of the browser it uses: the [time] cell,
    [timerRef.current] ([None] for [null]), the intervals that are set,
    and the id the next [setInterval] returns (ids are positive, so an id
    is truthy). *)
Record State := {
  time : Z;
  timerRef : option positive;
  intervals : gset positive;
  next_id : positive
}.

Definition initial : State :=
  {| time := 0; timerRef := None; intervals := ∅; next_id := 1%positive |}.

Definition startTimer (s : State) : State :=
  match timerRef s with
  | None =>
      {| time := time s;
         timerRef := Some (next_id s);
         intervals := {[ next_id s ]} ∪ intervals s;
         next_id := Pos.succ (next_id s) |}
  | Some _ => s
  end.

(** [clearInterval(null)] clears nothing. *)
Definition stopTimer (s : State) : State :=
  {| time := time s;
     timerRef := None;
     intervals :=
       match timerRef s with
       | Some id => intervals s ∖ {[ id ]}
       | None => intervals s
       end;
     next_id := next_id s |}.

(** The callback of the interval: [setTime((prev) => prev + 1)]. *)
Definition tick (s : State) : State :=
  {| time := Js.add_one (time s);
     timerRef := timerRef s;
     intervals := intervals s;
     next_id := next_id s |}.

Inductive Event :=
| ClickStart
| ClickStop
| Elapsed (id : positive).   (* a second of interval [id] has elapsed *)

(** The browser calls the callback of an interval only while it is set. *)
Definition handle (e : Event) (s : State) : State :=
  match e with
  | ClickStart => startTimer s
  | ClickStop => stopTimer s
  | Elapsed id => if bool_decide (id ∈ intervals s) then tick s else s
  end.

Definition handle_all (es : list Event) (s : State) : State :=
  fold_left (fun s e => handle e s) es s.

(** The intervals that are set are the one the ref holds. *)
Definition one_interval (s : State) : Prop :=
  intervals s = match timerRef s with Some id => {[ id ]} | None => ∅ end.

End Timer.

(** The page of the CSS demos after clicks on the toggle buttons of the
    components [cs], in that order. *)
Definition css_clicks (cs : list CssDemos.Component) (page : CssDemos.Page)
    : CssDemos.Page :=
  fold_left (fun page c => CssDemos.click c page) cs page.

(** ** Renders, memoised values and memoised components *)

Module Hooks.

(** What a hook or [React.memo] remembers between renders is compared with
    [Object.is]; [same] is that comparison on the values at hand.  Renders
    are the ones a production build performs: the second render that
    [StrictMode] adds during development is left out. *)

(** [useMemo(compute, [dep])]: the cell holds the dependency and the value
    of the last computation; the computation runs again only when the
    dependency differs.  The result is the value, the cell, and the lines
    the computation wrote to the console. *)
Definition useMemo {D V : Type} (same : D -> D -> bool)
    (compute : unit -> V * list string) (dep : D) (cell : option (D * V))
    : V * option (D * V) * list string :=
  match cell with
  | Some (dep', v) =>
      if same dep' dep then (v, cell, [])
      else let (v', lines) := compute tt in (v', Some (dep, v'), lines)
  | None => let (v', lines) := compute tt in (v', Some (dep, v'), lines)
  end.

(** [useCallback(fn, [])]: the function of the first render is kept. *)
Definition useCallback {F : Type} (fn : F) (cell : option F) : F * option F :=
  match cell with
  | Some kept => (kept, cell)
  | None => (fn, Some fn)
  end.

(** [React.memo(Component)]: the component renders, writing [lines], on
    the first render and when its props differ from those of its last
    render. *)
Definition memo {P : Type} (same : P -> P -> bool) (lines : list string)
    (last : option P) (props : P) : option P * list string :=
  match last with
  | Some props' => if same props' props then (last, []) else (Some props, lines)
  | None => (Some props, lines)
  end.

(** How often a line was written. *)
Definition written (line : string) (console : list string) : nat :=
  count_occ String.string_dec console line.

End Hooks.

(** ** useMemo note: the computation with and without [useMemo] *)

Module MemoDemo.

Import Hooks.

(** [expensiveCalculation]: the loop only spends time. *)
Definition expensiveCalculation (num : Z) : Z * list string :=
  (num * 2, ["Computing..."]).

(** A mounted component: the two state cells, the cell of [useMemo], the
    console, and the [computedValue] on screen. *)
Record Instance := {
  state : UseMemo.State;
  cell : option (Z * Z);
  console : list string;
  computedValue : Z
}.

(** A render of [WithoutUseMemo]. *)
Definition WithoutUseMemo (s : UseMemo.State) (i : Instance) : Instance :=
  let (value, lines) := expensiveCalculation (UseMemo.number s) in
  {| state := s;
     cell := cell i;
     console := (console i ++ lines)%list;
     computedValue := value |}.

(** A render of [WithUseMemo]. *)
Definition WithUseMemo (s : UseMemo.State) (i : Instance) : Instance :=
  let '(value, cell', lines) :=
    useMemo Z.eqb (fun _ => expensiveCalculation (UseMemo.number s))
      (UseMemo.number s) (cell i) in
  {| state := s;
     cell := cell';
     console := (console i ++ lines)%list;
     computedValue := value |}.

Definition unmounted : Instance :=
  {| state := UseMemo.initial; cell := None; console := []; computedValue := 0 |}.

(** The first render. *)
Definition mount (render : UseMemo.State -> Instance -> Instance) : Instance :=
  render UseMemo.initial unmounted.

(** A click on the button: [setCount(count + 1)], and a render when the
    count has changed (a setter given the value the cell holds causes no
    render). *)
Definition click (render : UseMemo.State -> Instance -> Instance) (i : Instance)
    : Instance :=
  let count := UseMemo.count (state i) in
  if Js.add_one count =? count then i
  else render (UseMemo.setCount (Js.add_one count) (state i)) i.

Definition clicks (render : UseMemo.State -> Instance -> Instance) (n : nat) : Instance :=
  Nat.iter n (click render) (mount render).

End MemoDemo.

(** ** useCallback note: how often [Child] renders *)

Module CallbackDemo.

Import Hooks.

(** A mounted [Parent].  A function is known by the render of [Parent]
    that created it: [renders] numbers the renders, [kept] is the cell of
    [useCallback], [child_props] the [handleClick] that [Child] was last
    rendered with. *)
Record Instance := {
  count : Z;
  renders : nat;
  kept : option nat;
  child_props : option nat;
  console : list string
}.

(** [Child], behind [React.memo]. *)
Definition Child (last : option nat) (handleClick : nat) : option nat * list string :=
  memo Nat.eqb ["Child re-rendered!"] last handleClick.

(** A render of [Parent] without [useCallback]: [handleClick] is a new
    function. *)
Definition Parent_plain (count : Z) (i : Instance) : Instance :=
  let handleClick := renders i in
  let (props, lines) := Child (child_props i) handleClick in
  {| count := count;
     renders := S (renders i);
     kept := kept i;
     child_props := props;
     console := (console i ++ lines)%list |}.

(** A render of [Parent] with [useCallback(..., [])]. *)
Definition Parent_callback (count : Z) (i : Instance) : Instance :=
  let (handleClick, kept') := useCallback (renders i) (kept i) in
  let (props, lines) := Child (child_props i) handleClick in
  {| count := count;
     renders := S (renders i);
     kept := kept';
     child_props := props;
     console := (console i ++ lines)%list |}.

Definition unmounted : Instance :=
  {| count := 0; renders := 0; kept := None; child_props := None; console := [] |}.

Definition mount (render : Z -> Instance -> Instance) : Instance :=
  render UseCallback.initial unmounted.

(** A click on one of the two buttons.  [Increment] sets the count and
    renders when it has changed; the button of [Child] runs
    [handleClick], which only writes to the console. *)
Definition click (render : Z -> Instance -> Instance)
    (b : Examples.ParentButton) (i : Instance) : Instance :=
  match b with
  | Examples.Increment =>
      if Js.add_one (count i) =? count i then i
      else render (Js.add_one (count i)) i
  | Examples.ClickMe =>
      {| count := count i;
         renders := renders i;
         kept := kept i;
         child_props := child_props i;
         console := (console i ++ ["Button clicked!"])%list |}
  end.

Definition clicks (render : Z -> Instance -> Instance)
    (bs : list Examples.ParentButton) : Instance :=
  fold_left (fun i b => click render b i) bs (mount render).

End CallbackDemo.

(** The clicks on [Increment] among the clicks [bs]. *)
Fixpoint increments (bs : list Examples.ParentButton) : nat :=
  match bs with
  | [] => 0
  | Examples.Increment :: rest => S (increments rest)
  | Examples.ClickMe :: rest => increments rest
  end.

(** ** Reconciliation note: [Greeting] behind [memo] *)

Module GreetingDemo.

Import Hooks.

(** A mounted [App]: its count, the props [Greeting] was last rendered
    with, and the console. *)
Record Instance := {
  count : Z;
  greeting_props : option string;
  console : list string
}.

(** [Greeting], behind [memo]; its only prop is [name]. *)
Definition Greeting (last : option string) (name : string) : option string * list string :=
  memo String.eqb ["Greeting component re-rendered"] last name.

(** A render of [App]: [<Greeting name="Ahmad" />] and the count. *)
Definition App (count : Z) (i : Instance) : Instance :=
  let (props, lines) := Greeting (greeting_props i) "Ahmad" in
  {| count := count;
     greeting_props := props;
     console := (console i ++ lines)%list |}.

Definition mount : Instance :=
  App 0 {| count := 0; greeting_props := None; console := [] |}.

(** A click on [Increment]. *)
Definition click (i : Instance) : Instance :=
  if Js.add_one (count i) =? count i then i
  else App (Js.add_one (count i)) i.

End GreetingDemo.

(** ** Invariants of the mounted components *)

(** What holds of [WithUseMemo] after any number of clicks. *)
Definition memo_kept (i : MemoDemo.Instance) : Prop :=
  UseMemo.number (MemoDemo.state i) = 10 /\
  MemoDemo.cell i = Some (10, 20) /\
  MemoDemo.computedValue i = 20 /\
  Hooks.written "Computing..." (MemoDemo.console i) = 1%nat.

(** What holds of [WithoutUseMemo] after [n] clicks that all counted. *)
Definition plain_recomputed (n : nat) (i : MemoDemo.Instance) : Prop :=
  UseMemo.number (MemoDemo.state i) = 10 /\
  UseMemo.count (MemoDemo.state i) = Z.of_nat n /\
  MemoDemo.computedValue i = 20 /\
  Hooks.written "Computing..." (MemoDemo.console i) = S n.

(** What holds of [Parent] with [useCallback] after any clicks: the
    function of the first render is the one kept and the one [Child] was
    rendered with. *)
Definition child_once (i : CallbackDemo.Instance) : Prop :=
  CallbackDemo.kept i = Some 0%nat /\
  CallbackDemo.child_props i = Some 0%nat /\
  Hooks.written "Child re-rendered!" (CallbackDemo.console i) = 1%nat.

(** What holds of [Parent] without [useCallback] after [k] clicks on
    [Increment] that all counted. *)
Definition child_every_render (k : nat) (i : CallbackDemo.Instance) : Prop :=
  CallbackDemo.count i = Z.of_nat k /\
  CallbackDemo.renders i = S k /\
  CallbackDemo.child_props i = Some k /\
  Hooks.written "Child re-rendered!" (CallbackDemo.console i) = S k.

(** What holds of the [App] of the reconciliation note after any clicks. *)
Definition greeted_once (i : GreetingDemo.Instance) : Prop :=
  GreetingDemo.greeting_props i = Some "Ahmad" /\
  Hooks.written "Greeting component re-rendered" (GreetingDemo.console i) = 1%nat.

(** ** useMemo note: filtering the users *)

Module UserFilter.

Import Hooks.

(** Text is modelled on ASCII: there a character is a code unit, and
    [toLowerCase] changes the letters A to Z only. *)
Definition ascii_char (c : Ascii.ascii) : bool := (Ascii.nat_of_ascii c <? 128)%nat.

Fixpoint ascii_only (s : string) : bool :=
  match s with
  | String.EmptyString => true
  | String.String c rest => ascii_char c && ascii_only rest
  end.

Definition lower_char (c : Ascii.ascii) : Ascii.ascii :=
  let n := Ascii.nat_of_ascii c in
  if ((65 <=? n) && (n <=? 90))%nat then Ascii.ascii_of_nat (n + 32) else c.

(** [s.toLowerCase()] *)
Fixpoint toLowerCase (s : string) : string :=
  match s with
  | String.EmptyString => String.EmptyString
  | String.String c rest => String.String (lower_char c) (toLowerCase rest)
  end.

(** [s.startsWith(sub)], the step of the search below. *)
Fixpoint starts_with (s sub : string) : bool :=
  match sub, s with
  | String.EmptyString, _ => true
  | String.String _ _, String.EmptyString => false
  | String.String c sub', String.String d s' => Ascii.eqb c d && starts_with s' sub'
  end.

(** [s.includes(sub)]: [sub] occurs somewhere in [s]. *)
Fixpoint includes (s sub : string) : bool :=
  starts_with s sub ||
  match s with
  | String.EmptyString => false
  | String.String _ rest => includes rest sub
  end.

Definition users : list string :=
  ["Alice"; "Bob"; "Charlie"; "David"; "Eve"; "Frank"].

(** [users.filter((user) => user.toLowerCase().includes(query.toLowerCase()))] *)
Definition filteredUsers (query : string) : list string :=
  List.filter (fun user => includes (toLowerCase user) (toLowerCase query)) users.

(** [filteredUsers.map((user, index) => <li key={index}>{user}</li>)] *)
Definition items (filtered : list string) : list (nat * string) :=
  imap (fun index user => (index, user)) filtered.

(** A mounted component: the query, the cell of [useMemo], the console,
    the list on screen and the number of renders so far. *)
Record Instance := {
  query : string;
  cell : option (string * list string);
  console : list string;
  shown : list (nat * string);
  renders : nat
}.

(** A render of [WithoutUseMemo]. *)
Definition WithoutUseMemo (query : string) (i : Instance) : Instance :=
  {| query := query;
     cell := cell i;
     console := console i;
     shown := items (filteredUsers query);
     renders := S (renders i) |}.

(** A render of [WithUseMemo]. *)
Definition WithUseMemo (query : string) (i : Instance) : Instance :=
  let '(filtered, cell', lines) :=
    useMemo String.eqb (fun _ => (filteredUsers query, ["Filtering..."]))
      query (cell i) in
  {| query := query;
     cell := cell';
     console := (console i ++ lines)%list;
     shown := items filtered;
     renders := S (renders i) |}.

Definition unmounted : Instance :=
  {| query := ""; cell := None; console := []; shown := []; renders := 0 |}.

Definition mount (render : string -> Instance -> Instance) : Instance :=
  render "" unmounted.

(** A change of the input: [setQuery(e.target.value)], and a render when
    the query has changed. *)
Definition change (render : string -> Instance -> Instance) (value : string)
    (i : Instance) : Instance :=
  if String.eqb value (query i) then i else render value i.

Definition changes (render : string -> Instance -> Instance) (typed : list string)
    : Instance :=
  fold_left (fun i value => change render value i) typed (mount render).

(** What holds of [WithUseMemo] after any changes: the cell holds the
    list for the query on screen, and every render has filtered. *)
Definition cell_fresh (i : Instance) : Prop :=
  cell i = Some (query i, filteredUsers (query i)) /\
  shown i = items (filteredUsers (query i)) /\
  written "Filtering..." (console i) = renders i.

End UserFilter.

(** ** doubts-and-solutions/solutions/Ans-5.md: refs across renders *)

Module PreviousState.

(** A mounted [PreviousStateExample]: the count, [prevCountRef.current],
    the dependency the effect last ran with, and the two numbers on
    screen, "Current Count" and "Previous Count". *)
Record Instance := {
  count : Z;
  prevCountRef : Z;
  effect_dep : option Z;
  shown : Z * Z
}.

(** A render, which reads the ref, followed by the effect, which runs
    when [count] differs from the last run and writes the ref. *)
Definition PreviousStateExample (count : Z) (i : Instance) : Instance :=
  let rendered := (count, prevCountRef i) in
  let runs :=
    match effect_dep i with
    | Some dep => negb (dep =? count)
    | None => true
    end in
  {| count := count;
     prevCountRef := if runs then count else prevCountRef i;
     effect_dep := Some count;
     shown := rendered |}.

(** [useState(0)], [useRef(count)]. *)
Definition mount : Instance :=
  PreviousStateExample 0
    {| count := 0; prevCountRef := 0; effect_dep := None; shown := (0, 0) |}.

Definition click (i : Instance) : Instance :=
  if Js.add_one (count i) =? count i then i
  else PreviousStateExample (Js.add_one (count i)) i.

End PreviousState.

Module RenderCounter.

(** A mounted [RenderCounter]: the count, [renderCount.current], and the
    number on screen in "Component Rendered: ... times". *)
Record Instance := {
  count : Z;
  renderCount : Z;
  shown : Z
}.

(** A render, which reads the ref, followed by the effect, which has no
    dependency list and so runs after every render. *)
Definition RenderCounter (count : Z) (i : Instance) : Instance :=
  {| count := count;
     renderCount := Js.add_one (renderCount i);
     shown := renderCount i |}.

(** [useState(0)], [useRef(1)]. *)
Definition mount : Instance :=
  RenderCounter 0 {| count := 0; renderCount := 1; shown := 0 |}.

Definition click (i : Instance) : Instance :=
  if Js.add_one (count i) =? count i then i
  else RenderCounter (Js.add_one (count i)) i.

End RenderCounter.

(** ** The context-api demo under a sequence of clicks *)

#[global] Instance ContextApp_Component_eq_dec : EqDecision ContextApp.Component.
Proof. solve_decision. Defined.

Definition context_clicks (cs : list ContextApp.Component) (s : ContextApp.State)
    : ContextApp.State :=
  fold_left (fun s c => ContextApp.click c s) cs s.

(** ** doubts-and-solutions/solutions/Ans-6.md: ControlledForm *)

Module ControlledForm.

(** The two inputs of the form, and the [name] attribute of each. *)
Inductive Input := name_input | email_input.

#[global] Instance Input_eq_dec : EqDecision Input.
Proof. solve_decision. Defined.

Definition name (input : Input) : string :=
  match input with
  | name_input => "name"
  | email_input => "email"
  end.

(** [useState({ name: "", email: "" })] *)
Definition initial : gmap string string :=
  <[ "email" := "" ]> {[ "name" := "" ]}.

(** [handleChange], as created by the render with [formData]; [target] is
    the input that changed and [value] its text. *)
Definition handleChange (formData : gmap string string) (target : Input)
    (value : string) : Prog (gmap string string) :=
  Update (fun _ => <[ name target := value ]> formData) Done.

(** What the render puts in the [value] of an input. *)
Definition value_of (formData : gmap string string) (input : Input) : option string :=
  formData !! name input.

(** The form after a change. *)
Definition change (formData : gmap string string) (e : Input * string)
    : gmap string string :=
  call (handleChange formData (fst e) (snd e)) formData.

Definition changes (es : list (Input * string)) : gmap string string :=
  fold_left change es initial.

(** The last text typed into [input] among the changes [es], and [d] when
    there was none. *)
Fixpoint last_typed (input : Input) (es : list (Input * string)) (d : string) : string :=
  match es with
  | [] => d
  | (target, value) :: rest =>
      last_typed input rest (if decide (target = input) then value else d)
  end.

End ControlledForm.

(** ** useMemo note: the input of the filter demo *)

Module FilterView.

(** What [WithUseMemo] and [WithoutUseMemo] return for a query: the
    [<input>], whose [onChange] is [(e) => setQuery(e.target.value)], and
    the list. *)
Definition WithUseMemo (query : string) : UseCallback.input * list (nat * string) :=
  ({| UseCallback.onChange := fun value => Update (fun _ => value) Done;
      UseCallback.placeholder := "Search user..." |},
   UserFilter.items (UserFilter.filteredUsers query)).

End FilterView.

(** The filter demo as a transition system: the event carries the text
    typed into the input. *)
Definition Filter : Example :=
  {| State := string;
     initial := "";
     Event := string;
     trigger := fun _ => Change;
     handler := fun query value =>
       UseCallback.onChange (fst (FilterView.WithUseMemo query)) value;
     cells := fun query => [Js.VStr query] |}.

(** ** Where the handlers are bound *)

(** The place a handler is attached to: the [onClick] of a [<button>], the
    [onChange] of an [<input>], or a [useEffect] of the component. *)
Inductive Source := button_onClick | input_onChange | useEffect.

(** A bound handler: its place, and the program it runs for the
    [e.target.value] of the event (which buttons and effects ignore). *)
Record Binding (S : Type) := {
  source : Source;
  listener : string -> Prog S
}.
Arguments source {S} _.
Arguments listener {S} _.

Definition of_button {S : Type} (b : button S) : Binding S :=
  {| source := button_onClick; listener := fun _ => onClick b |}.

Definition of_input (i : UseCallback.input) : Binding string :=
  {| source := input_onChange; listener := UseCallback.onChange i |}.

Definition of_effect {S : Type} (effect : Prog S) : Binding S :=
  {| source := useEffect; listener := fun _ => effect |}.

(** An example with the handlers its render binds in a given state. *)
Record Mounted := {
  example : Example;
  bindings : State example -> list (Binding (State example))
}.

Module Mounts.

Definition ThemedButton : Mounted :=
  {| example := Examples.ThemedButton;
     bindings := fun theme =>
       [of_button (Components.ThemedButton (ThemeContext.ThemeProvider theme))] |}.

Definition AuthButton : Mounted :=
  {| example := Examples.AuthButton;
     bindings := fun isAuthenticated =>
       [of_button (Components.AuthButton (AuthContext.AuthProvider isAuthenticated))] |}.

Definition Counter : Mounted :=
  {| example := Examples.Counter;
     bindings := fun count => [of_button (Counter.increment (Counter.Counter count))] |}.

Definition UseMemo : Mounted :=
  {| example := Examples.UseMemo;
     bindings := fun s => [of_button (UseMemo.increase (UseMemo.WithUseMemo s))] |}.

Definition UseCallback : Mounted :=
  {| example := Examples.UseCallback;
     bindings := fun count =>
       [of_button (UseCallback.increment (UseCallback.Parent count));
        of_button (UseCallback.child (UseCallback.Parent count))] |}.

Definition css (component : bool -> demo bool) (init : bool) : Mounted :=
  {| example := Examples.css component init;
     bindings := fun b => [of_button (toggle (component b))] |}.

Definition css_demos : list Mounted :=
  [ css CssDemos.Using_Inline_Style false;
    css CssDemos.Using_CSS_Classes false;
    css CssDemos.Using_CSS_Modules true;
    css CssDemos.Using_Styled_Components false;
    css CssDemos.Using_Tailwind_CSS false;
    css CssDemos.Using_Emotion false ].

Definition Search : Mounted :=
  {| example := Examples.Search;
     bindings := fun query => [of_input (UseCallback.Search query)] |}.

Definition Filter : Mounted :=
  {| example := Filter;
     bindings := fun query => [of_input (fst (FilterView.WithUseMemo query))] |}.

Definition ReduxThunk : Mounted :=
  {| example := Examples.ReduxThunk;
     bindings := fun _ => [of_effect ReduxThunk.App_effect] |}.

(** ThemedButton, AuthButton, the CSS demos, Counter, the counting demo of
    the useMemo note and the Parent of the useCallback note. *)
Definition named : list Mounted :=
  [ThemedButton; AuthButton] ++ css_demos ++ [Counter; UseMemo; UseCallback].

(** The demos whose state is the text of an input. *)
Definition inputs : list Mounted := [Search; Filter].

Definition all : list Mounted := named ++ inputs ++ [ReduxThunk].

End Mounts.

(** The place a trigger stands for. *)
Definition place (t : Trigger) : Source :=
  match t with
  | Click => button_onClick
  | Change => input_onChange
  | Mount => useEffect
  end.

(** The transitions of a mounted example: a handler bound in state [s]
    runs, for some text of the event and some network, and leaves [s']. *)
Definition transition (m : Mounted) (from : Source) (s s' : State (example m)) : Prop :=
  exists b, In b (bindings m s) /\ source b = from /\
  exists text net,
    s' = store (fst (run net (listener b text) {| store := s; console := [] |})).

(** ** The state cells as JavaScript values *)

Module Untyped.

Import Js.

(** [!v] *)
Definition not (v : value) : value := VBool (negb (ReduxThunk.truthy v)).

(** [v + 1].  A number in the range where integers are exact gets its
    successor; text gets "1" appended; [true], [false] and [null] count as
    1, 0 and 0.  [None] where the result is no value of this model: NaN
    for [undefined], the text of an array or object, a number out of
    range. *)
Definition plus_one (v : value) : option value :=
  match v with
  | VNum n =>
      if (- MAX_EXACT <=? n) && (n <=? MAX_EXACT) then Some (VNum (add_one n))
      else None
  | VStr s => Some (VStr (s +:+ "1"))
  | VBool b => Some (VNum (if b then 2 else 1))
  | VNull => Some (VNum 1)
  | VUndefined | VArr _ | VObj _ => None
  end.

(** An example over a store of untyped cells, one per state variable:
    the store a state of the typed example stands for, and what handling
    an event does to a store, written with the operators of the source. *)
Record example := {
  typed : Example;
  store_of : State typed -> gmap string value;
  on_event : gmap string value -> Event typed -> option (gmap string value)
}.

(** [setTheme((prevTheme) => (prevTheme === "light" ? "dark" : "light"))] *)
Definition ThemedButton : example :=
  {| typed := Examples.ThemedButton;
     store_of := fun theme => {[ "theme" := VStr theme ]};
     on_event := fun st _ =>
       Some (<[ "theme" :=
                  if strict_eq_str (ReduxThunk.get st "theme") "light"
                  then VStr "dark" else VStr "light" ]> st) |}.

(** [onClick={isAuthenticated ? logout : login}] *)
Definition AuthButton : example :=
  {| typed := Examples.AuthButton;
     store_of := fun isAuthenticated => {[ "isAuthenticated" := VBool isAuthenticated ]};
     on_event := fun st _ =>
       Some (<[ "isAuthenticated" :=
                  if ReduxThunk.truthy (ReduxThunk.get st "isAuthenticated")
                  then VBool false else VBool true ]> st) |}.

(** [setCount(count + 1)] *)
Definition increment (st : gmap string value) : option (gmap string value) :=
  count ← plus_one (ReduxThunk.get st "count");
  Some (<[ "count" := count ]> st).

Definition Counter : example :=
  {| typed := Examples.Counter;
     store_of := fun count => {[ "count" := VNum count ]};
     on_event := fun st _ => increment st |}.

Definition UseMemo : example :=
  {| typed := Examples.UseMemo;
     store_of := fun s =>
       <[ "number" := VNum (UseMemo.number s) ]> {[ "count" := VNum (UseMemo.count s) ]};
     on_event := fun st _ => increment st |}.

Definition UseCallback : example :=
  {| typed := Examples.UseCallback;
     store_of := fun count => {[ "count" := VNum count ]};
     on_event := fun st b =>
       match b with
       | Examples.Increment => increment st
       | Examples.ClickMe => Some st
       end |}.

(** [setX(!x)], for the state variable [x] of a CSS demo. *)
Definition css (x : string) (component : bool -> demo bool) (init : bool) : example :=
  {| typed := Examples.css component init;
     store_of := fun b => {[ x := VBool b ]};
     on_event := fun st _ => Some (<[ x := not (ReduxThunk.get st x) ]> st) |}.

Definition css_demos : list example :=
  [ css "isActive" CssDemos.Using_Inline_Style false;
    css "isDark" CssDemos.Using_CSS_Classes false;
    css "isSuccess" CssDemos.Using_CSS_Modules true;
    css "primary" CssDemos.Using_Styled_Components false;
    css "isActive" CssDemos.Using_Tailwind_CSS false;
    css "isActive" CssDemos.Using_Emotion false ].

(** [setQuery(e.target.value)]; the value of an input is text. *)
Definition Search : example :=
  {| typed := Examples.Search;
     store_of := fun query => {[ "query" := VStr query ]};
     on_event := fun st value => Some (<[ "query" := VStr value ]> st) |}.

Definition Filter : example :=
  {| typed := Filter;
     store_of := fun query => {[ "query" := VStr query ]};
     on_event := fun st value => Some (<[ "query" := VStr value ]> st) |}.

Definition named : list example :=
  [ThemedButton; AuthButton] ++ css_demos ++ [Counter; UseMemo; UseCallback].

Definition inputs : list example := [Search; Filter].

(** The store the component mounts with. *)
Definition initial_store (u : example) : gmap string value :=
  store_of u (initial (typed u)).

(** The stores a mounted example can come to hold. *)
Inductive reachable (u : example) : gmap string value -> Prop :=
| reachable_mount : reachable u (initial_store u)
| reachable_event st e st' :
    reachable u st -> on_event u st e = Some st' -> reachable u st'.

End Untyped.

(** ** Numbers that print as they are *)

(** The numbers in [v] are integers of the range where every integer is
    exact; they print as their decimal digits. *)
Fixpoint exact_numbers (v : Js.value) : bool :=
  match v with
  | Js.VNum n => (- Js.MAX_EXACT <=? n) && (n <=? Js.MAX_EXACT)
  | Js.VArr items => forallb exact_numbers items
  | Js.VObj fields =>
      forallb (fun field => match field with (_, x) => exact_numbers x end) fields
  | _ => true
  end.

(** ** What the specification claims, as stated *)

Module Claimed.

(** C1: a click on one component changes nothing a component of another
    file shows, and a piece of state is modified only by a component of the
    file that declares it. *)
Definition state_is_file_local : Prop :=
  (forall c x s,
      ContextApp.read x (ContextApp.click c s) <> ContextApp.read x s ->
      ContextApp.defined_in c = ContextApp.declared_in x) /\
  (forall c c' s,
      ContextApp.defined_in c <> ContextApp.defined_in c' ->
      ContextApp.rendered c' (ContextApp.click c s) = ContextApp.rendered c' s).

(** C2: no handler of any example has a [catch]. *)
Definition no_error_branch : Prop :=
  forall ex, In ex Examples.corpus ->
  forall s e, ~ Catches (handler ex s e).

(** C3: for every named example, the click handler applied twice restores
    the state. *)
Definition click_is_a_flip : Prop :=
  forall ex, In ex Examples.named ->
  forall net e s, reachable ex s -> fire ex net e (fire ex net e s) = s.


(** C5: every change of state comes from the [onClick] of a button. *)
Definition only_clicks_change_state : Prop :=
  forall m, In m Mounts.all ->
  forall from s s', transition m from s s' -> s' <> s -> from = button_onClick.

(** C6: every handler runs to its end synchronously. *)
Definition all_synchronous : Prop :=
  forall ex, In ex Examples.corpus ->
  forall s e w, snd (run_sync (handler ex s e) w) = Done.

End Claimed.

(** Case analysis over a list of examples given in extension. *)
Ltac by_example H tac :=
  simpl in H;
  repeat (destruct H as [<- | H]; [tac |]);
  try contradiction.

(** ** Running handler programs *)

Section RunLemmas.

Context {S : Type}.
Implicit Types (p : Prog S) (w : World S).

Lemma straight_line_finishes p w :
  straight_line p = true -> snd (run_sync p w) = Done.
Proof.
  revert w; induction p as [|f k IH|l k IH|op k IH|b IHb h IHh k IHk];
    intros w Hp; simpl in *; try discriminate; auto.
Qed.

Lemma straight_line_run net p w :
  straight_line p = true -> run net p w = (fst (run_sync p w), Normal).
Proof.
  revert w; induction p as [|f k IH|l k IH|op k IH|b IHb h IHh k IHk];
    intros w Hp; simpl in *; try discriminate; auto.
Qed.

Lemma straight_line_no_catch p : straight_line p = true -> ~ Catches p.
Proof.
  intros Hp Hc; induction Hc; simpl in Hp; try discriminate; auto.
Qed.

Lemma straight_line_no_await p : straight_line p = true -> ~ Awaits p.
Proof.
  intros Hp Ha; induction Ha; simpl in Hp; try discriminate; auto.
Qed.

(** Running a program is running its synchronous part and then, once the
    awaited promise has settled, the rest. *)
Lemma run_resume net p w :
  run net p w = run net (snd (run_sync p w)) (fst (run_sync p w)).
Proof.
  revert w; induction p as [|f k IH|l k IH|op k IH|b IHb h IHh k IHk];
    intros w; simpl; auto.
  specialize (IHb w).
  destruct (run_sync b w) as [w' b'] eqn:Hb; simpl in IHb.
  destruct b'; simpl in *; rewrite IHb; simpl; auto.
Qed.

Lemma run_seq net p q w :
  run net (seq p q) w =
  match run net p w with
  | (w', Normal) => run net q w'
  | thrown => thrown
  end.
Proof.
  revert w; induction p as [|f k IH|l k IH|op k IH|b IHb h IHh k IHk];
    intros w; simpl; auto.
  - destruct (Js.settle net op); auto.
  - destruct (run net b w) as [w' [|e]]; auto.
    destruct (run net (h e) w') as [w'' [|e']]; auto.
Qed.

End RunLemmas.

Lemma fire_straight_line (ex : Example) net e s :
  straight_line (handler ex s e) = true ->
  fire ex net e s = call (handler ex s e) s.
Proof.
  intros Hp. unfold fire, call. rewrite (straight_line_run net _ _ Hp). reflexivity.
Qed.

(** ** The examples at work *)

Example themed_click_darkens_navbar :
  prop "backgroundColor"
    (Components.nav_style
       (ContextApp.navbar
          (ContextApp.App
             (ContextApp.click ContextApp.CThemedButton ContextApp.initial))))
  = Some "#222".
Proof. reflexivity. Qed.

Example themed_button_text :
  children (ContextApp.themedButton (ContextApp.App ContextApp.initial))
  = "Toggle Theme (Current: light)".
Proof. reflexivity. Qed.

Example counter_heading_after_three_clicks :
  Counter.h1
    (Counter.Counter
       (fire Examples.Counter ReduxThunk.offline tt
          (fire Examples.Counter ReduxThunk.offline tt
             (fire Examples.Counter ReduxThunk.offline tt 0))))
  = "Counter: 3".
Proof. reflexivity. Qed.

Example counter_stalls_at_max_exact :
  fire Examples.Counter ReduxThunk.offline tt Js.MAX_EXACT = Js.MAX_EXACT.
Proof. reflexivity. Qed.

Example use_memo_heading :
  UseMemo.h2 (UseMemo.WithUseMemo UseMemo.initial) = "Expensive Computation: 20".
Proof. reflexivity. Qed.

Example search_logs_the_term :
  fst (run ReduxThunk.offline (handler Examples.Search "" "redux")
         {| store := ""; console := [] |})
  = {| store := "redux"; console := ["Fetching results for: redux"] |}.
Proof. reflexivity. Qed.

Example child_click_only_logs :
  fst (run_sync (handler Examples.UseCallback 7 Examples.ClickMe)
         {| store := 7; console := [] |})
  = {| store := 7; console := ["Button clicked!"] |}.
Proof. reflexivity. Qed.

Example app_shows_loading_while_suspended :
  ReduxThunk.App
    (store (fst (run_sync ReduxThunk.App_effect
                   {| store := ReduxThunk.initialStore; console := [] |})))
  = Some ReduxThunk.Loading.
Proof. vm_compute. reflexivity. Qed.

Example app_shows_error_when_offline :
  ReduxThunk.App
    (fire Examples.ReduxThunk ReduxThunk.offline tt ReduxThunk.initialStore)
  = Some (ReduxThunk.ErrorText (Js.VStr "Failed to fetch")).
Proof. vm_compute. reflexivity. Qed.

Example app_shows_error_on_bad_json :
  ReduxThunk.App
    (fire Examples.ReduxThunk ReduxThunk.serving_garbage tt ReduxThunk.initialStore)
  = Some (ReduxThunk.ErrorText (Js.VStr "Unexpected token")).
Proof. vm_compute. reflexivity. Qed.

Example app_lists_the_items :
  ReduxThunk.App
    (fire Examples.ReduxThunk
       (ReduxThunk.serving
          (Js.VArr [Js.VObj [("id", Js.VNum 1); ("name", Js.VStr "a")]]))
       tt ReduxThunk.initialStore)
  = Some (ReduxThunk.Items [Js.VObj [("id", Js.VNum 1); ("name", Js.VStr "a")]]).
Proof. vm_compute. reflexivity. Qed.

Example app_cannot_render_a_body_that_is_no_array :
  ReduxThunk.App
    (fire Examples.ReduxThunk (ReduxThunk.serving (Js.VNum 3)) tt
       ReduxThunk.initialStore)
  = None.
Proof. vm_compute. reflexivity. Qed.

Example store_starts_at_initialState :
  ReduxThunk.data ReduxThunk.initialStore = ReduxThunk.initialState.
Proof. vm_compute. reflexivity. Qed.

(** The handlers of the named examples and of [Search] only call setters
    and [console.log]. *)
Lemma named_straight_line ex :
  In ex (Examples.named ++ [Examples.Search]) ->
  forall s e, straight_line (handler ex s e) = true.
Proof.
  simpl. intros Hex.
  repeat (destruct Hex as [<-|Hex]; [intros s e; simpl in *; try reflexivity|]);
    try contradiction.
  - destruct s; reflexivity.
  - destruct e; reflexivity.
Qed.

(** ** context-api: AuthContext and AuthButton *)

(** C7.  In the AuthContext demo [isAuthenticated] starts [false]; whatever
    the state before, [login()] leaves it [true] and [logout()] leaves it
    [false], so calling either twice is the same as calling it once; a
    click on AuthButton negates [isAuthenticated]; and the button reads
    "Logout" exactly when [isAuthenticated] is [true]. *)
Theorem auth_login_logout_click :
  AuthContext.initial = false /\
  (forall prior shown : bool,
      let login := AuthContext.login (AuthContext.AuthProvider shown) in
      let logout := AuthContext.logout (AuthContext.AuthProvider shown) in
      call login prior = true /\
      call logout prior = false /\
      call login (call login prior) = call login prior /\
      call logout (call logout prior) = call logout prior) /\
  (forall isAuthenticated : bool,
      let rendered := Components.AuthButton (AuthContext.AuthProvider isAuthenticated) in
      call (onClick rendered) isAuthenticated = negb isAuthenticated /\
      (children rendered = "Logout" <-> isAuthenticated = true)) /\
  (forall s : ContextApp.State,
      ContextApp.authState (ContextApp.click ContextApp.CAuthButton s)
      = negb (ContextApp.authState s)).
Proof.
  split; [reflexivity|]. split; [|split].
  - intros prior shown. cbn. auto.
  - intros [|]; cbn; split; auto; split; intros; congruence.
  - intros [t [|]]; reflexivity.
Qed.

(** ** context-api: ThemeContext and ThemedButton *)

Lemma toggleTheme_call (shown t : string) :
  call (ThemeContext.toggleTheme (ThemeContext.ThemeProvider shown)) t
  = if String.eqb t "light" then "dark" else "light".
Proof. reflexivity. Qed.

Lemma toggleTheme_valid (shown t : string) :
  ThemeContext.valid
    (call (ThemeContext.toggleTheme (ThemeContext.ThemeProvider shown)) t).
Proof.
  rewrite toggleTheme_call. unfold ThemeContext.valid.
  destruct (String.eqb t "light"); auto.
Qed.

Lemma theme_reachable_valid t : ThemeContext.Reachable t -> ThemeContext.valid t.
Proof.
  intros [|t' _]; [left; reflexivity | apply toggleTheme_valid].
Qed.

(** C8.  The theme of ThemeProvider is always "light" or "dark": it starts
    as "light", a call of [toggleTheme] on a theme of that set gives a
    theme of that set, every reachable theme is in the set, and on every
    reachable theme two consecutive toggles give the theme back. *)
Theorem theme_light_or_dark :
  ThemeContext.initial = "light" /\
  (forall t : string,
      ThemeContext.valid t ->
      ThemeContext.valid
        (call (ThemeContext.toggleTheme (ThemeContext.ThemeProvider t)) t)) /\
  (forall t : string,
      ThemeContext.Reachable t ->
      ThemeContext.valid t /\
      let t' := call (onClick (Components.ThemedButton (ThemeContext.ThemeProvider t))) t in
      call (onClick (Components.ThemedButton (ThemeContext.ThemeProvider t'))) t' = t).
Proof.
  split; [reflexivity|]. split.
  - intros t _. apply toggleTheme_valid.
  - intros t Ht. apply theme_reachable_valid in Ht. split; [exact Ht|].
    destruct Ht as [-> | ->]; reflexivity.
Qed.

Lemma theme_light_or_dark_witness :
  ThemeContext.valid "dark" /\
  call (ThemeContext.toggleTheme (ThemeContext.ThemeProvider "light"))
       (call (ThemeContext.toggleTheme (ThemeContext.ThemeProvider "dark")) "dark")
  = "dark".
Proof.
  destruct theme_light_or_dark as (_ & Hpres & Hreach).
  assert (Hr : ThemeContext.Reachable "dark").
  { exact (ThemeContext.Reachable_toggle _ ThemeContext.Reachable_initial). }
  split.
  - exact (Hpres "light" (or_introl eq_refl)).
  - exact (proj2 (Hreach "dark" Hr)).
Defined.

(** ** redux-thunk: the reducer *)

Section Reducer.

Import Js ReduxThunk.

Lemma strict_eq_str_true (v : value) (s : string) :
  strict_eq_str v s = true <-> v = VStr s.
Proof.
  destruct v; simpl; try (split; [discriminate | congruence]).
  rewrite String.eqb_eq. split; congruence.
Qed.

Lemma strict_eq_str_false (v : value) (s : string) :
  strict_eq_str v s = false <-> v <> VStr s.
Proof.
  rewrite <- strict_eq_str_true. destruct (strict_eq_str v s); split; congruence.
Qed.

Lemma dataReducer_request (state : option object) (action : object) :
  get action "type" = VStr FETCH_DATA_REQUEST ->
  dataReducer state action = <[ "loading" := VBool true ]> (default initialState state).
Proof. intros H. unfold dataReducer. rewrite H. reflexivity. Qed.

Lemma dataReducer_success (state : option object) (action : object) :
  get action "type" = VStr FETCH_DATA_SUCCESS ->
  dataReducer state action =
  <[ "error" := VStr "" ]>
    (<[ "data" := get action "payload" ]>
       (<[ "loading" := VBool false ]> (default initialState state))).
Proof. intros H. unfold dataReducer. rewrite H. reflexivity. Qed.

Lemma dataReducer_failure (state : option object) (action : object) :
  get action "type" = VStr FETCH_DATA_FAILURE ->
  dataReducer state action =
  <[ "error" := get action "payload" ]>
    (<[ "data" := VArr [] ]>
       (<[ "loading" := VBool false ]> (default initialState state))).
Proof. intros H. unfold dataReducer. rewrite H. reflexivity. Qed.

Lemma dataReducer_default (state : option object) (action : object) :
  get action "type" <> VStr FETCH_DATA_REQUEST ->
  get action "type" <> VStr FETCH_DATA_SUCCESS ->
  get action "type" <> VStr FETCH_DATA_FAILURE ->
  dataReducer state action = default initialState state.
Proof.
  intros H1 H2 H3. unfold dataReducer.
  apply strict_eq_str_false in H1, H2, H3. rewrite H1, H2, H3. reflexivity.
Qed.

End Reducer.

(** C9.  [dataReducer] answers every action.  An action whose type is none
    of the three action types gets the state back unchanged; on
    FETCH_DATA_REQUEST only [loading] changes, to [true]; on
    FETCH_DATA_SUCCESS [loading] is [false], [data] is the payload and
    [error] is the empty string; on FETCH_DATA_FAILURE [loading] is
    [false], [data] is the empty array and [error] is the payload; every
    other field keeps its value in each case.  The state is the one passed,
    or [initialState] when none is. *)
Theorem dataReducer_by_action_type
    (passed : option (gmap string Js.value)) (action : gmap string Js.value) :
  let state := default ReduxThunk.initialState passed in
  let type := ReduxThunk.get action "type" in
  let next := ReduxThunk.dataReducer passed action in
  (type <> Js.VStr ReduxThunk.FETCH_DATA_REQUEST ->
   type <> Js.VStr ReduxThunk.FETCH_DATA_SUCCESS ->
   type <> Js.VStr ReduxThunk.FETCH_DATA_FAILURE ->
   next = state) /\
  (type = Js.VStr ReduxThunk.FETCH_DATA_REQUEST ->
   next !! "loading" = Some (Js.VBool true) /\
   forall k : string, k <> "loading" -> next !! k = state !! k) /\
  (type = Js.VStr ReduxThunk.FETCH_DATA_SUCCESS ->
   next !! "loading" = Some (Js.VBool false) /\
   next !! "data" = Some (ReduxThunk.get action "payload") /\
   next !! "error" = Some (Js.VStr "") /\
   forall k : string,
     k <> "loading" -> k <> "data" -> k <> "error" -> next !! k = state !! k) /\
  (type = Js.VStr ReduxThunk.FETCH_DATA_FAILURE ->
   next !! "loading" = Some (Js.VBool false) /\
   next !! "data" = Some (Js.VArr []) /\
   next !! "error" = Some (ReduxThunk.get action "payload") /\
   forall k : string,
     k <> "loading" -> k <> "data" -> k <> "error" -> next !! k = state !! k).
Proof.
  intros state type next. subst state type next. repeat split.
  - apply dataReducer_default; assumption.
  - rewrite dataReducer_request by assumption. apply lookup_insert_eq.
  - rewrite dataReducer_request by assumption.
    intros k Hk. apply lookup_insert_ne. congruence.
  - rewrite dataReducer_success by assumption.
    rewrite !lookup_insert_ne by discriminate. apply lookup_insert_eq.
  - rewrite dataReducer_success by assumption.
    rewrite lookup_insert_ne by discriminate. apply lookup_insert_eq.
  - rewrite dataReducer_success by assumption. apply lookup_insert_eq.
  - rewrite dataReducer_success by assumption.
    intros k H1 H2 H3. rewrite !lookup_insert_ne by congruence. reflexivity.
  - rewrite dataReducer_failure by assumption.
    rewrite !lookup_insert_ne by discriminate. apply lookup_insert_eq.
  - rewrite dataReducer_failure by assumption.
    rewrite lookup_insert_ne by discriminate. apply lookup_insert_eq.
  - rewrite dataReducer_failure by assumption. apply lookup_insert_eq.
  - rewrite dataReducer_failure by assumption.
    intros k H1 H2 H3. rewrite !lookup_insert_ne by congruence. reflexivity.
Qed.

Lemma dataReducer_by_action_type_witness :
  ReduxThunk.dataReducer None ReduxThunk.INIT = ReduxThunk.initialState /\
  ReduxThunk.dataReducer (Some ReduxThunk.initialState) ReduxThunk.fetchDataRequest
    !! "loading" = Some (Js.VBool true) /\
  ReduxThunk.dataReducer (Some ReduxThunk.initialState)
    (ReduxThunk.fetchDataSuccess (Js.VArr [Js.VNum 1])) !! "data"
    = Some (Js.VArr [Js.VNum 1]) /\
  ReduxThunk.dataReducer (Some ReduxThunk.initialState)
    (ReduxThunk.fetchDataFailure (Js.VStr "Failed to fetch")) !! "error"
    = Some (Js.VStr "Failed to fetch").
Proof.
  split; [|split; [|split]].
  - apply (dataReducer_by_action_type None ReduxThunk.INIT);
      vm_compute; discriminate.
  - apply (dataReducer_by_action_type (Some ReduxThunk.initialState)
             ReduxThunk.fetchDataRequest).
    vm_compute; reflexivity.
  - apply (dataReducer_by_action_type (Some ReduxThunk.initialState)
             (ReduxThunk.fetchDataSuccess (Js.VArr [Js.VNum 1]))).
    vm_compute; reflexivity.
  - apply (dataReducer_by_action_type (Some ReduxThunk.initialState)
             (ReduxThunk.fetchDataFailure (Js.VStr "Failed to fetch"))).
    vm_compute; reflexivity.
Defined.

(** ** redux-thunk: the thunk *)

Section Thunk.

Import Js ReduxThunk.

Lemma rootReducer_data (s : RootState) (action : object) :
  data (rootReducer (Some s) action) = dataReducer (Some (data s)) action.
Proof. reflexivity. Qed.

Lemma payload_success (body : value) : get (fetchDataSuccess body) "payload" = body.
Proof. unfold get, fetchDataSuccess. rewrite lookup_insert_eq. reflexivity. Qed.

Lemma payload_failure (error : value) : get (fetchDataFailure error) "payload" = error.
Proof. unfold get, fetchDataFailure. rewrite lookup_insert_eq. reflexivity. Qed.

(** [fetchData] run to its end: the request is dispatched, then the
    success with the body, or the failure with the message of the error. *)
Lemma run_dispatch_fetchData (net : Network) (w : World RootState) :
  run net dispatch_fetchData w =
  ({| store :=
        let requested := rootReducer (Some (store w)) fetchDataRequest in
        match fetched net with
        | Fulfilled body => rootReducer (Some requested) (fetchDataSuccess body)
        | Rejected error =>
            rootReducer (Some requested) (fetchDataFailure (VStr (message error)))
        end;
      console := console w |}, Normal).
Proof.
  unfold dispatch_fetchData, fetchData, fetched. simpl.
  destruct (net "https://api.example.com/data") as [response|error]; simpl;
    [destruct (json response); simpl|]; reflexivity.
Qed.

Lemma run_record_fetchData (net : Network) (log : list object) :
  store (fst (run net (fetchData record) {| store := log; console := [] |})) =
  (log ++ [ fetchDataRequest;
            match fetched net with
            | Fulfilled body => fetchDataSuccess body
            | Rejected error => fetchDataFailure (VStr (message error))
            end ])%list.
Proof.
  unfold fetchData, fetched. simpl.
  destruct (net "https://api.example.com/data") as [response|error]; simpl;
    [destruct (json response); simpl|]; rewrite <- app_assoc; reflexivity.
Qed.

Lemma fetchData_store (net : Network) (s : RootState) :
  data (fire Examples.ReduxThunk net tt s) =
  match fetched net with
  | Fulfilled body =>
      <[ "error" := VStr "" ]>
        (<[ "data" := body ]> (<[ "loading" := VBool false ]> (data s)))
  | Rejected error =>
      <[ "error" := VStr (message error) ]>
        (<[ "data" := VArr [] ]> (<[ "loading" := VBool false ]> (data s)))
  end.
Proof.
  unfold fire. simpl handler. unfold App_effect.
  rewrite run_dispatch_fetchData. cbn [fst store].
  destruct (fetched net) as [body|error]; rewrite rootReducer_data.
  - rewrite dataReducer_success by reflexivity.
    rewrite rootReducer_data, dataReducer_request by reflexivity.
    cbn [default from_option id]. rewrite insert_insert_eq, payload_success.
    reflexivity.
  - rewrite dataReducer_failure by reflexivity.
    rewrite rootReducer_data, dataReducer_request by reflexivity.
    cbn [default from_option id]. rewrite insert_insert_eq, payload_failure.
    reflexivity.
Qed.

Lemma fetchData_catches : Catches dispatch_fetchData.
Proof. unfold dispatch_fetchData, fetchData. simpl. do 1 constructor. constructor. Qed.

Lemma fetchData_awaits : Awaits dispatch_fetchData.
Proof.
  unfold dispatch_fetchData, fetchData. simpl.
  apply Awaits_update, Awaits_body, Awaits_here.
Qed.

(** The synchronous part of [fetchData]: the request is dispatched and the
    call stops at [await fetch(...)], inside the [try]. *)
Lemma run_sync_dispatch_fetchData (w : World RootState) :
  exists k h,
    run_sync dispatch_fetchData w =
    ({| store := rootReducer (Some (store w)) fetchDataRequest;
        console := console w |},
     Try (Await (Fetch "https://api.example.com/data") k) h Done).
Proof. unfold dispatch_fetchData, fetchData. simpl. eauto. Qed.

End Thunk.

(** ** Error handling *)

(** C2, as stated, fails: the effect of the redux-thunk [App] contains a
    [catch], and with the network down it puts the message of the error in
    [state.error]. *)
Lemma fetchData_stores_the_error :
  Catches (handler Examples.ReduxThunk ReduxThunk.initialStore tt) /\
  ReduxThunk.get
    (ReduxThunk.data
       (fire Examples.ReduxThunk ReduxThunk.offline tt ReduxThunk.initialStore))
    "error" = Js.VStr "Failed to fetch" /\
  ~ Claimed.no_error_branch.
Proof.
  split; [exact fetchData_catches|]. split; [vm_compute; reflexivity|].
  intros H.
  apply (H Examples.ReduxThunk) with (s := ReduxThunk.initialStore) (e := tt).
  - unfold Examples.corpus. apply in_or_app. right. right. left. reflexivity.
  - exact fetchData_catches.
Qed.

(** C2, amended.  No handler of the examples the specification names, nor
    the [onChange] of Search, has a [catch].  The redux-thunk example has
    one: [fetchData] dispatches FETCH_DATA_REQUEST and then, when [fetch]
    or [response.json()] rejects, catches the error and dispatches
    FETCH_DATA_FAILURE with its message, which the reducer stores in
    [error] (with [loading] false and [data] empty); otherwise it
    dispatches FETCH_DATA_SUCCESS with the body. *)
Theorem error_branch_only_in_fetchData :
  (forall ex, In ex (Examples.named ++ [Examples.Search]) ->
   forall s e, ~ Catches (handler ex s e)) /\
  (forall s, Catches (handler Examples.ReduxThunk s tt)) /\
  (forall net log,
      store (fst (run net (ReduxThunk.fetchData ReduxThunk.record)
                      {| store := log; console := [] |})) =
      (log ++ [ ReduxThunk.fetchDataRequest;
                match ReduxThunk.fetched net with
                | Js.Fulfilled body => ReduxThunk.fetchDataSuccess body
                | Js.Rejected error =>
                    ReduxThunk.fetchDataFailure (Js.VStr (Js.message error))
                end ])%list) /\
  (forall net s,
      ReduxThunk.data (fire Examples.ReduxThunk net tt s) =
      match ReduxThunk.fetched net with
      | Js.Fulfilled body =>
          <[ "error" := Js.VStr "" ]>
            (<[ "data" := body ]>
               (<[ "loading" := Js.VBool false ]> (ReduxThunk.data s)))
      | Js.Rejected error =>
          <[ "error" := Js.VStr (Js.message error) ]>
            (<[ "data" := Js.VArr [] ]>
               (<[ "loading" := Js.VBool false ]> (ReduxThunk.data s)))
      end).
Proof.
  split; [|split; [|split]].
  - intros ex Hex s e. apply straight_line_no_catch, named_straight_line, Hex.
  - intros s. exact fetchData_catches.
  - exact run_record_fetchData.
  - exact fetchData_store.
Qed.

Lemma error_branch_only_in_fetchData_witness :
  ~ Catches (handler Examples.Counter 0 tt).
Proof.
  apply (proj1 error_branch_only_in_fetchData Examples.Counter).
  simpl. do 8 right. left. reflexivity.
Defined.

(** ** Synchrony *)

(** C6, as stated, fails: the effect of the redux-thunk [App] does not run
    to its end synchronously.  It stops at an [await] with the store
    showing [loading] true. *)
Lemma fetchData_suspends_at_await :
  snd (run_sync (handler Examples.ReduxThunk ReduxThunk.initialStore tt)
         {| store := ReduxThunk.initialStore; console := [] |}) <> Done /\
  Awaits (handler Examples.ReduxThunk ReduxThunk.initialStore tt) /\
  ReduxThunk.get
    (ReduxThunk.data
       (store (fst (run_sync (handler Examples.ReduxThunk ReduxThunk.initialStore tt)
                      {| store := ReduxThunk.initialStore; console := [] |}))))
    "loading" = Js.VBool true /\
  ~ Claimed.all_synchronous.
Proof.
  split; [|split; [|split]].
  - simpl. discriminate.
  - exact fetchData_awaits.
  - vm_compute. reflexivity.
  - intros H.
    specialize (H Examples.ReduxThunk).
    assert (Hin : In Examples.ReduxThunk Examples.corpus).
    { unfold Examples.corpus. apply in_or_app. right. right. left. reflexivity. }
    specialize (H Hin ReduxThunk.initialStore tt
                  {| store := ReduxThunk.initialStore; console := [] |}).
    simpl in H. discriminate.
Qed.

(** C6, amended.  Every handler of the examples the specification names,
    and the [onChange] of Search, runs to its end synchronously, without
    awaiting.  [fetchData] of the redux-thunk example is asynchronous: its
    synchronous part dispatches FETCH_DATA_REQUEST and stops at
    [await fetch(...)]; the success or the failure is dispatched by the
    rest, which runs once the promise has settled. *)
Theorem only_fetchData_awaits :
  (forall ex, In ex (Examples.named ++ [Examples.Search]) ->
   forall s e w,
     snd (run_sync (handler ex s e) w) = Done /\ ~ Awaits (handler ex s e)) /\
  (forall s w, exists k h,
      run_sync (handler Examples.ReduxThunk s tt) w =
      ({| store := ReduxThunk.rootReducer (Some (store w)) ReduxThunk.fetchDataRequest;
          console := console w |},
       Try (Await (Js.Fetch "https://api.example.com/data") k) h Done)) /\
  (forall net s w,
      let suspended := run_sync (handler Examples.ReduxThunk s tt) w in
      run net (handler Examples.ReduxThunk s tt) w
      = run net (snd suspended) (fst suspended)).
Proof.
  split; [|split].
  - intros ex Hex s e w. split.
    + apply straight_line_finishes, named_straight_line, Hex.
    + apply straight_line_no_await, named_straight_line, Hex.
  - intros s w. apply run_sync_dispatch_fetchData.
  - intros net s w. apply run_resume.
Qed.

Lemma only_fetchData_awaits_witness :
  snd (run_sync (handler Examples.Search "" "a") {| store := ""; console := [] |})
  = Done.
Proof.
  apply (proj1 only_fetchData_awaits Examples.Search).
  simpl. do 11 right. left. reflexivity.
Defined.

(** ** The type of the state *)

Lemma add_one_below (n : Z) : n < Js.MAX_EXACT -> Js.add_one n = n + 1.
Proof.
  intros Hn. unfold Js.add_one.
  destruct (Z.ltb_spec n Js.MAX_EXACT); [reflexivity | lia].
Qed.

Lemma add_one_at_top (n : Z) : Js.MAX_EXACT <= n -> Js.add_one n = n.
Proof.
  intros Hn. unfold Js.add_one.
  destruct (Z.ltb_spec n Js.MAX_EXACT); [lia | reflexivity].
Qed.

Lemma add_one_range (n : Z) :
  0 <= n <= Js.MAX_EXACT -> 0 <= Js.add_one n <= Js.MAX_EXACT.
Proof.
  intros Hn. destruct (Z.lt_ge_cases n Js.MAX_EXACT).
  - rewrite add_one_below by assumption. lia.
  - rewrite add_one_at_top by assumption. lia.
Qed.















(** ** What triggers a change of state *)

(** The handler of each event of an example is one its render binds, at
    the place its trigger names. *)
Lemma handlers_are_bound (m : Mounted) :
  In m Mounts.all ->
  forall s e, exists b,
    In b (bindings m s) /\
    source b = place (trigger (example m) e) /\
    exists text, listener b text = handler (example m) s e.
Proof.
  intros Hm.
  by_example Hm ltac:(
    intros s e; simpl;
    try (eexists; split; [left; reflexivity|];
         split; [reflexivity|]; first [exists e; reflexivity | exists ""; reflexivity])).
  destruct e.
  - eexists. split; [left; reflexivity|]. split; [reflexivity|]. exists "". reflexivity.
  - eexists. split; [right; left; reflexivity|]. split; [reflexivity|]. exists "". reflexivity.
Qed.

(** C5, as stated, fails: typing "a" into the input of Search changes
    [query] from an [onChange], and mounting the redux-thunk [App] changes
    the store from a [useEffect]. *)
Lemma state_changes_without_a_click :
  transition Mounts.Search input_onChange "" "a" /\
  "a" <> "" /\
  transition Mounts.ReduxThunk useEffect ReduxThunk.initialStore
    (fire Examples.ReduxThunk ReduxThunk.offline tt ReduxThunk.initialStore) /\
  fire Examples.ReduxThunk ReduxThunk.offline tt ReduxThunk.initialStore
    <> ReduxThunk.initialStore /\
  ~ Claimed.only_clicks_change_state.
Proof.
  assert (Hstep : transition Mounts.Search input_onChange "" "a").
  { eexists. split; [left; reflexivity|]. split; [reflexivity|].
    exists "a", ReduxThunk.offline. reflexivity. }
  split; [exact Hstep|]. split; [discriminate|]. split; [|split].
  - eexists. split; [left; reflexivity|]. split; [reflexivity|].
    exists "", ReduxThunk.offline. reflexivity.
  - intros H. apply (f_equal (fun s => ReduxThunk.get (ReduxThunk.data s) "error")) in H.
    vm_compute in H. discriminate.
  - intros H.
    assert (Hc : In Mounts.Search Mounts.all).
    { unfold Mounts.all. apply in_or_app. right. left. reflexivity. }
    specialize (H Mounts.Search Hc input_onChange "" "a" Hstep).
    assert (Ht : input_onChange = button_onClick) by (apply H; discriminate).
    discriminate.
Qed.

(** C5, amended.  In the examples the specification names (ThemedButton,
    AuthButton, the CSS demos, Counter, the counting demo of the useMemo
    note, the Parent and Child of the useCallback note) every handler that
    can change the state is bound to the [onClick] of a button, and a
    click does change the state each of them mounts with.  In Search and
    in the filter demo of the useMemo note the state changes from the
    [onChange] of an input, to the text typed.  The store of the
    redux-thunk example changes from the [useEffect] of [App], to what
    [fetchData] leaves. *)
Theorem triggers_of_state_changes :
  (forall m, In m Mounts.named ->
     (forall from s s', transition m from s s' -> from = button_onClick) /\
     (exists s', transition m button_onClick (initial (example m)) s' /\
                 s' <> initial (example m))) /\
  (forall m, In m Mounts.inputs ->
     forall from s s', transition m from s s' -> from = input_onChange) /\
  (forall query typed : string,
     transition Mounts.Search input_onChange query typed /\
     transition Mounts.Filter input_onChange query typed) /\
  (forall from s s',
     transition Mounts.ReduxThunk from s s' ->
     from = useEffect /\ exists net, s' = fire Examples.ReduxThunk net tt s).
Proof.
  split; [|split; [|split]].
  - intros m Hm.
    by_example Hm ltac:(
      split;
      [ intros from s s' (b & Hb & <- & _); simpl in Hb;
        repeat (destruct Hb as [<- | Hb]; [reflexivity|]); contradiction
      | eexists; split;
        [ eexists; split; [left; reflexivity|]; split; [reflexivity|];
          exists "", ReduxThunk.offline; reflexivity
        | vm_compute; discriminate ] ]).
  - intros m Hm.
    by_example Hm ltac:(
      intros from s s' (b & Hb & <- & _); simpl in Hb;
      repeat (destruct Hb as [<- | Hb]; [reflexivity|]); contradiction).
  - intros query typed. split.
    + eexists. split; [left; reflexivity|]. split; [reflexivity|].
      exists typed, ReduxThunk.offline. reflexivity.
    + eexists. split; [left; reflexivity|]. split; [reflexivity|].
      exists typed, ReduxThunk.offline. reflexivity.
  - intros from s s' (b & Hb & <- & text & net & ->). simpl in Hb.
    destruct Hb as [<- | []]. split; [reflexivity|]. exists net. reflexivity.
Qed.

Lemma triggers_of_state_changes_witness :
  exists s', transition Mounts.Counter button_onClick 0 s' /\ s' <> 0.
Proof.
  apply (proj1 triggers_of_state_changes Mounts.Counter).
  simpl. do 8 right. left. reflexivity.
Defined.

(** ** What a click does to the state *)

Lemma themed_reachable_valid (t : string) :
  reachable Examples.ThemedButton t -> ThemeContext.valid t.
Proof.
  intros [|net e t' _]; [left; reflexivity|].
  rewrite fire_straight_line by reflexivity. apply toggleTheme_valid.
Qed.

(** C3, as stated, fails: two clicks on the button of Counter leave 2
    where there was 0. *)
Lemma counter_click_is_no_flip :
  reachable Examples.Counter 0 /\
  fire Examples.Counter ReduxThunk.offline tt
    (fire Examples.Counter ReduxThunk.offline tt 0) = 2 /\
  ~ Claimed.click_is_a_flip.
Proof.
  assert (Hr : reachable Examples.Counter 0) by exact (reachable_initial Examples.Counter).
  split; [exact Hr|]. split; [reflexivity|].
  intros H.
  assert (Hc : In Examples.Counter Examples.named).
  { simpl. do 8 right. left. reflexivity. }
  specialize (H Examples.Counter Hc ReduxThunk.offline tt 0 Hr).
  vm_compute in H. discriminate.
Qed.

(** C3, amended.  For ThemedButton, AuthButton and the CSS demos the click
    handler flips the value held in state: applied twice, it gives back the
    state it started from.  For Counter, the useMemo demo and the
    [Increment] button of the useCallback demo the click handler adds 1 to
    a [count] from 0 and below 2^53 (the useMemo demo leaves [number]
    alone), so that two clicks on Counter add 2; the button of [Child]
    leaves [count] as it is. *)
Theorem clicks_flip_or_count :
  (forall ex, In ex Examples.toggles ->
   forall net net' e e' s,
     reachable ex s -> fire ex net' e' (fire ex net e s) = s) /\
  (forall net (count : Z),
      0 <= count < Js.MAX_EXACT -> fire Examples.Counter net tt count = count + 1) /\
  (forall net (s : UseMemo.State),
      0 <= UseMemo.count s < Js.MAX_EXACT ->
      fire Examples.UseMemo net tt s
      = {| UseMemo.count := UseMemo.count s + 1; UseMemo.number := UseMemo.number s |}) /\
  (forall net (count : Z),
      0 <= count < Js.MAX_EXACT ->
      fire Examples.UseCallback net Examples.Increment count = count + 1) /\
  (forall net (count : Z),
      fire Examples.UseCallback net Examples.ClickMe count = count) /\
  (forall net net' (count : Z),
      0 <= count -> count + 1 < Js.MAX_EXACT ->
      fire Examples.Counter net' tt (fire Examples.Counter net tt count) = count + 2).
Proof.
  repeat apply conj.
  - intros ex Hex net net' e e' s Hs.
    by_example Hex ltac:(try (destruct s; reflexivity)).
    apply themed_reachable_valid in Hs. destruct Hs as [-> | ->]; reflexivity.
  - intros net count Hc. cbn. apply add_one_below, Hc.
  - intros net s Hc. cbn. unfold UseMemo.setCount.
    rewrite add_one_below by apply Hc. reflexivity.
  - intros net count Hc. cbn. apply add_one_below, Hc.
  - intros net count. reflexivity.
  - intros net net' count H0 Hc. cbn.
    rewrite (add_one_below count) by lia. rewrite add_one_below by lia. lia.
Qed.

Lemma clicks_flip_or_count_witness :
  fire Examples.AuthButton ReduxThunk.offline tt
    (fire Examples.AuthButton ReduxThunk.offline tt false) = false /\
  fire Examples.Counter ReduxThunk.offline tt 41 = 42.
Proof.
  destruct clicks_flip_or_count as (Hflip & Hcount & _).
  split.
  - apply (Hflip Examples.AuthButton).
    + simpl. right. left. reflexivity.
    + exact (reachable_initial Examples.AuthButton).
  - apply (Hcount ReduxThunk.offline 41). split; [discriminate | reflexivity].
Defined.

(** ** Which state a click reaches *)

(** C1, as stated, fails: [theme] is declared in ThemeContext.jsx, a click
    on the button of ThemedButton.jsx changes it, and Navbar.jsx shows the
    change. *)
Lemma theme_is_shared_across_files :
  ContextApp.defined_in ContextApp.CThemedButton
    <> ContextApp.declared_in ContextApp.theme_cell /\
  ContextApp.read ContextApp.theme_cell
    (ContextApp.click ContextApp.CThemedButton ContextApp.initial)
    <> ContextApp.read ContextApp.theme_cell ContextApp.initial /\
  ContextApp.defined_in ContextApp.CThemedButton
    <> ContextApp.defined_in ContextApp.CNavbar /\
  ContextApp.rendered ContextApp.CNavbar
    (ContextApp.click ContextApp.CThemedButton ContextApp.initial)
    <> ContextApp.rendered ContextApp.CNavbar ContextApp.initial /\
  ~ Claimed.state_is_file_local.
Proof.
  split; [discriminate|]. split; [vm_compute; discriminate|].
  split; [discriminate|]. split; [vm_compute; discriminate|].
  intros [_ H].
  specialize (H ContextApp.CThemedButton ContextApp.CNavbar ContextApp.initial).
  vm_compute in H. assert (Hne : ContextApp.ThemedButton_jsx <> ContextApp.Navbar_jsx)
    by discriminate.
  specialize (H Hne). discriminate.
Qed.

(** C1, amended.  The state a CSS demo declares with [useState] is its
    own: a click on the button of one demo flips its cell and changes
    neither the state nor the output of another.  The context-api demo
    shares state between files through context: a click on ThemedButton
    toggles [theme], declared in ThemeContext.jsx, and a click on
    AuthButton negates [isAuthenticated], declared in AuthContext.jsx;
    Navbar shows both changes; a click on ThemedButton leaves
    [isAuthenticated] and the output of AuthButton as they were, and a
    click on AuthButton leaves [theme] and the output of ThemedButton as
    they were. *)
Theorem css_state_local_context_state_shared :
  (forall (c c' : CssDemos.Component) (page : CssDemos.Page),
      CssDemos.click c page c = negb (page c) /\
      (c' <> c ->
       CssDemos.click c page c' = page c' /\
       CssDemos.rendered c' (CssDemos.click c page) = CssDemos.rendered c' page)) /\
  (forall s : ContextApp.State,
      ContextApp.click ContextApp.CThemedButton s
      = {| ContextApp.themeState :=
             if String.eqb (ContextApp.themeState s) "light" then "dark" else "light";
           ContextApp.authState := ContextApp.authState s |} /\
      ContextApp.click ContextApp.CAuthButton s
      = {| ContextApp.themeState := ContextApp.themeState s;
           ContextApp.authState := negb (ContextApp.authState s) |}) /\
  (forall s : ContextApp.State,
      ContextApp.rendered ContextApp.CNavbar
        (ContextApp.click ContextApp.CThemedButton s)
        <> ContextApp.rendered ContextApp.CNavbar s /\
      ContextApp.rendered ContextApp.CNavbar
        (ContextApp.click ContextApp.CAuthButton s)
        <> ContextApp.rendered ContextApp.CNavbar s) /\
  (forall s : ContextApp.State,
      ContextApp.rendered ContextApp.CAuthButton
        (ContextApp.click ContextApp.CThemedButton s)
        = ContextApp.rendered ContextApp.CAuthButton s /\
      ContextApp.rendered ContextApp.CThemedButton
        (ContextApp.click ContextApp.CAuthButton s)
        = ContextApp.rendered ContextApp.CThemedButton s).
Proof.
  split; [|split; [|split]].
  - intros c c' page. split.
    + unfold CssDemos.click. rewrite decide_True by reflexivity.
      destruct c; reflexivity.
    + intros Hne. unfold CssDemos.rendered, CssDemos.click.
      rewrite decide_False by exact Hne. split; reflexivity.
  - intros [t [|]]; split; reflexivity.
  - intros [t a]. split.
    + cbn. destruct (String.eqb t "light"); cbn; discriminate.
    + destruct a; cbn; discriminate.
  - intros [t [|]]; split; reflexivity.
Qed.

Lemma css_state_local_context_state_shared_witness :
  CssDemos.click CssDemos.CSS_Classes CssDemos.initial_page CssDemos.CSS_Module
  = CssDemos.initial_page CssDemos.CSS_Module.
Proof.
  apply (proj1 css_state_local_context_state_shared
           CssDemos.CSS_Classes CssDemos.CSS_Module CssDemos.initial_page).
  discriminate.
Defined.

(** * Further properties of the examples *)

(** ** redux-thunk: the store and the screen *)

Section StoreAndScreen.

Import Js ReduxThunk.

Lemma get_insert_eq (m : object) (k : string) (v : value) :
  get (<[ k := v ]> m) k = v.
Proof. unfold get. rewrite lookup_insert_eq. reflexivity. Qed.

Lemma get_insert_ne (m : object) (k k' : string) (v : value) :
  k <> k' -> get (<[ k := v ]> m) k' = get m k'.
Proof. intros H. unfold get. rewrite lookup_insert_ne by exact H. reflexivity. Qed.

Lemma RootState_eq (a b : RootState) : data a = data b -> a = b.
Proof. destruct a, b. simpl. intros ->. reflexivity. Qed.

Lemma truthy_VStr (s : string) : truthy (VStr s) = negb (String.eqb s "").
Proof. reflexivity. Qed.

End StoreAndScreen.

(** X1.  What [App] shows once [fetchData] has run to its end, whatever the
    store held before, for a body whose numbers are integers of the exact
    range: the message of the error after "Error: " when the fetch failed
    with a message that is not empty; an empty list when it failed with an
    empty message; the list of the items when the body is an array whose
    items can be rendered; and nothing at all (rendering throws) when the
    body is no array. *)
Theorem app_after_fetchData (net : Js.Network) (s : ReduxThunk.RootState) :
  (forall body, ReduxThunk.fetched net = Js.Fulfilled body ->
     exact_numbers body = true) ->
  ReduxRender.AppTree (fire Examples.ReduxThunk net tt s) =
  match ReduxThunk.fetched net with
  | Js.Rejected error =>
      if String.eqb (Js.message error) ""
      then Some (ReduxRender.UL [])
      else Some (ReduxRender.P ("Error: " +:+ Js.message error))
  | Js.Fulfilled (Js.VArr items) =>
      ReduxRender.UL <$> mapM ReduxRender.list_item items
  | Js.Fulfilled _ => None
  end.
Proof.
  intros _.
  unfold ReduxRender.AppTree, ReduxRender.render. rewrite fetchData_store.
  destruct (ReduxThunk.fetched net) as [body|error];
    repeat (rewrite get_insert_eq || rewrite get_insert_ne by discriminate);
    cbn [ReduxThunk.truthy].
  - destruct body; reflexivity.
  - destruct (String.eqb (Js.message error) ""); reflexivity.
Qed.

Lemma app_after_fetchData_witness :
  ReduxRender.AppTree
    (fire Examples.ReduxThunk
       (ReduxThunk.serving
          (Js.VArr [Js.VObj [("id", Js.VNum 1); ("name", Js.VStr "a")]]))
       tt ReduxThunk.initialStore)
  = Some (ReduxRender.UL [{| ReduxRender.key := Js.VNum 1; ReduxRender.text := "a" |}]).
Proof.
  etransitivity.
  - apply app_after_fetchData. intros body H. injection H as <-. reflexivity.
  - reflexivity.
Defined.

(** X2.  While [fetchData] is suspended at its first [await], [App] shows
    "Loading...", whatever the store held before, an earlier error
    included. *)
Theorem app_loading_while_suspended (w : World ReduxThunk.RootState) :
  ReduxRender.AppTree (store (fst (run_sync ReduxThunk.App_effect w)))
  = Some (ReduxRender.P "Loading...").
Proof.
  destruct (run_sync_dispatch_fetchData w) as (k & h & Hsync).
  unfold ReduxThunk.App_effect. rewrite Hsync. cbn [fst store].
  unfold ReduxRender.AppTree, ReduxRender.render.
  rewrite rootReducer_data, dataReducer_request by reflexivity.
  cbn [default from_option id]. repeat (rewrite get_insert_eq || rewrite get_insert_ne by discriminate). reflexivity.
Qed.

(** X3.  A fetch overwrites the previous one: running [fetchData] after an
    earlier run leaves the store as if only the later run had happened. *)
Theorem fetchData_overwrites (net net' : Js.Network) (s : ReduxThunk.RootState) :
  fire Examples.ReduxThunk net tt (fire Examples.ReduxThunk net' tt s)
  = fire Examples.ReduxThunk net tt s.
Proof.
  apply RootState_eq. rewrite !fetchData_store.
  destruct (ReduxThunk.fetched net), (ReduxThunk.fetched net');
    apply map_eq; intros k; rewrite !lookup_insert;
    repeat case_decide; reflexivity.
Qed.

(** X4.  [dataReducer] is idempotent: reducing the same action twice gives
    the state that reducing it once gives. *)
Theorem dataReducer_idempotent
    (state : option (gmap string Js.value)) (action : gmap string Js.value) :
  ReduxThunk.dataReducer (Some (ReduxThunk.dataReducer state action)) action
  = ReduxThunk.dataReducer state action.
Proof.
  unfold ReduxThunk.dataReducer. cbn [default from_option id].
  repeat match goal with
         | |- context [Js.strict_eq_str ?v ?s] => destruct (Js.strict_eq_str v s)
         end;
    try reflexivity;
    apply map_eq; intros k; rewrite !lookup_insert;
    repeat case_decide; reflexivity.
Qed.

(** ** redux-thunk: the reducer of the answer to Q2 *)

Section SecondReducer.

Import Js ReduxThunk.

Lemma type_of_request : get fetchDataRequest "type" = VStr FETCH_DATA_REQUEST.
Proof. reflexivity. Qed.

Lemma type_of_success (body : value) :
  get (fetchDataSuccess body) "type" = VStr FETCH_DATA_SUCCESS.
Proof. reflexivity. Qed.

Lemma type_of_failure (error : value) :
  get (fetchDataFailure error) "type" = VStr FETCH_DATA_FAILURE.
Proof. reflexivity. Qed.

Lemma fetch_into_run (reducer : option object -> object -> object)
    (net : Network) (state : object) :
  fetch_into reducer net state =
  match fetched net with
  | Fulfilled body =>
      reducer (Some (reducer (Some state) fetchDataRequest)) (fetchDataSuccess body)
  | Rejected error =>
      reducer (Some (reducer (Some state) fetchDataRequest))
        (fetchDataFailure (VStr (message error)))
  end.
Proof.
  unfold fetch_into, fetchData, fetched, dispatch_to. simpl.
  destruct (net "https://api.example.com/data") as [response|error]; simpl;
    [destruct (json response); simpl|]; reflexivity.
Qed.

Lemma fetch_into_second (net : Network) (state : object) :
  fetch_into DataReducerJs.dataReducer net state =
  match fetched net with
  | Fulfilled body =>
      <[ "data" := body ]>
        (<[ "loading" := VBool false ]>
           (<[ "error" := VNull ]> (<[ "loading" := VBool true ]> state)))
  | Rejected error =>
      <[ "error" := VStr (message error) ]>
        (<[ "loading" := VBool false ]>
           (<[ "error" := VNull ]> (<[ "loading" := VBool true ]> state)))
  end.
Proof.
  rewrite fetch_into_run. unfold DataReducerJs.dataReducer.
  destruct (fetched net) as [body|error].
  - rewrite type_of_success, type_of_request, payload_success. reflexivity.
  - rewrite type_of_failure, type_of_request, payload_failure. reflexivity.
Qed.

Lemma fetch_into_first (net : Network) (state : object) :
  fetch_into ReduxThunk.dataReducer net state =
  match fetched net with
  | Fulfilled body =>
      <[ "error" := VStr "" ]>
        (<[ "data" := body ]>
           (<[ "loading" := VBool false ]> (<[ "loading" := VBool true ]> state)))
  | Rejected error =>
      <[ "error" := VStr (message error) ]>
        (<[ "data" := VArr [] ]>
           (<[ "loading" := VBool false ]> (<[ "loading" := VBool true ]> state)))
  end.
Proof.
  rewrite fetch_into_run. unfold ReduxThunk.dataReducer.
  destruct (fetched net) as [body|error].
  - rewrite type_of_success, type_of_request, payload_success. reflexivity.
  - rewrite type_of_failure, type_of_request, payload_failure. reflexivity.
Qed.

End SecondReducer.

(** X5.  The two versions of [dataReducer] in the note put the same thing
    on screen after [fetchData], unless the fetch fails with an empty
    message.  When the fetch fails, the second version keeps the data the
    store already held, where the first empties it. *)
Theorem second_reducer_same_screen_keeps_data
    (net : Js.Network) (state : gmap string Js.value) :
  ((forall error, ReduxThunk.fetched net = Js.Rejected error -> Js.message error <> "") ->
   ReduxRender.render (fetch_into DataReducerJs.dataReducer net state)
   = ReduxRender.render (fetch_into ReduxThunk.dataReducer net state)) /\
  (forall error, ReduxThunk.fetched net = Js.Rejected error ->
   ReduxThunk.get (fetch_into DataReducerJs.dataReducer net state) "data"
   = ReduxThunk.get state "data" /\
   ReduxThunk.get (fetch_into ReduxThunk.dataReducer net state) "data" = Js.VArr []).
Proof.
  rewrite fetch_into_second, fetch_into_first. split.
  - intros Hmsg. unfold ReduxRender.render.
    destruct (ReduxThunk.fetched net) as [body|error];
      repeat (rewrite get_insert_eq || rewrite get_insert_ne by discriminate).
    + reflexivity.
    + specialize (Hmsg error eq_refl). apply String.eqb_neq in Hmsg.
      cbn [ReduxThunk.truthy]. rewrite Hmsg. reflexivity.
  - intros error ->.
    repeat (rewrite get_insert_eq || rewrite get_insert_ne by discriminate).
    split; reflexivity.
Qed.

Lemma second_reducer_same_screen_keeps_data_witness :
  ReduxRender.render
    (fetch_into DataReducerJs.dataReducer ReduxThunk.offline DataReducerJs.initialState)
  = ReduxRender.render
      (fetch_into ReduxThunk.dataReducer ReduxThunk.offline DataReducerJs.initialState).
Proof.
  apply (proj1 (second_reducer_same_screen_keeps_data
                  ReduxThunk.offline DataReducerJs.initialState)).
  intros error H. injection H as <-. discriminate.
Defined.

(** ** context-api: the tree as a whole *)

(** X6.  Clicks on the components of the context-api demo commute: the
    state after a click on one and then on another does not depend on the
    order. *)
Theorem context_clicks_commute (c c' : ContextApp.Component) (s : ContextApp.State) :
  ContextApp.click c (ContextApp.click c' s)
  = ContextApp.click c' (ContextApp.click c s).
Proof. destruct s as [t [|]], c, c'; reflexivity. Qed.

(** X7.  After any sequence of clicks from the initial state of the
    context-api demo, the theme is "light" when ThemedButton was clicked
    an even number of times and "dark" otherwise, and the user is
    authenticated exactly when AuthButton was clicked an odd number of
    times: the order of the clicks does not matter. *)
Theorem context_state_after_clicks (cs : list ContextApp.Component) :
  let s := context_clicks cs ContextApp.initial in
  ContextApp.themeState s
  = (if Nat.even (count_occ ContextApp_Component_eq_dec cs ContextApp.CThemedButton)
     then "light" else "dark") /\
  ContextApp.authState s
  = Nat.odd (count_occ ContextApp_Component_eq_dec cs ContextApp.CAuthButton).
Proof.
  cbv zeta.
  assert (H : forall cs (dark auth : bool),
    let s := context_clicks cs
               {| ContextApp.themeState := if dark then "dark" else "light";
                  ContextApp.authState := auth |} in
    ContextApp.themeState s
    = (if xorb dark (Nat.odd (count_occ ContextApp_Component_eq_dec cs ContextApp.CThemedButton))
       then "dark" else "light") /\
    ContextApp.authState s
    = xorb auth (Nat.odd (count_occ ContextApp_Component_eq_dec cs ContextApp.CAuthButton))).
  { clear cs. induction cs as [|c cs IH]; intros dark auth; cbv zeta.
    - simpl. destruct dark, auth; split; reflexivity.
    - destruct c; simpl count_occ; rewrite ?Nat.odd_succ, <- ?Nat.negb_odd.
      + exact (IH dark auth).
      + replace (context_clicks (ContextApp.CThemedButton :: cs) _)
          with (context_clicks cs
                  {| ContextApp.themeState := if negb dark then "dark" else "light";
                     ContextApp.authState := auth |})
          by (destruct dark; reflexivity).
        destruct (IH (negb dark) auth) as [Ht Ha]. rewrite Ht, Ha.
        destruct dark, auth,
          (Nat.odd (count_occ ContextApp_Component_eq_dec cs ContextApp.CThemedButton)),
          (Nat.odd (count_occ ContextApp_Component_eq_dec cs ContextApp.CAuthButton));
          split; reflexivity.
      + replace (context_clicks (ContextApp.CAuthButton :: cs) _)
          with (context_clicks cs
                  {| ContextApp.themeState := if dark then "dark" else "light";
                     ContextApp.authState := negb auth |})
          by (destruct dark, auth; reflexivity).
        destruct (IH dark (negb auth)) as [Ht Ha]. rewrite Ht, Ha.
        destruct dark, auth,
          (Nat.odd (count_occ ContextApp_Component_eq_dec cs ContextApp.CThemedButton)),
          (Nat.odd (count_occ ContextApp_Component_eq_dec cs ContextApp.CAuthButton));
          split; reflexivity. }
  destruct (H cs false false) as [Ht Ha]. split.
  - etransitivity; [exact Ht|]. rewrite <- Nat.negb_odd.
    destruct (Nat.odd _); reflexivity.
  - etransitivity; [exact Ha|]. reflexivity.
Qed.

(** X8.  In every state of the context-api demo Navbar and ThemedButton
    use the same palette, each with a text colour that differs from its
    background, and Navbar greets the user exactly when AuthButton offers
    "Logout". *)
Theorem context_views_agree (s : ContextApp.State) :
  let shown := ContextApp.App s in
  (prop "color" (Components.nav_style (ContextApp.navbar shown))
   = prop "color" (style (ContextApp.themedButton shown))) /\
  (prop "backgroundColor" (Components.nav_style (ContextApp.navbar shown)) = Some "#f4f4f4"
   <-> prop "backgroundColor" (style (ContextApp.themedButton shown)) = Some "#fff") /\
  (prop "color" (Components.nav_style (ContextApp.navbar shown))
   <> prop "backgroundColor" (Components.nav_style (ContextApp.navbar shown))) /\
  (prop "color" (style (ContextApp.themedButton shown))
   <> prop "backgroundColor" (style (ContextApp.themedButton shown))) /\
  (Components.p (ContextApp.navbar shown) = "Welcome, User!"
   <-> children (ContextApp.authButton shown) = "Logout").
Proof.
  destruct s as [t a]. cbn.
  destruct (String.eqb t "light"), a; cbn;
    repeat split; intros; try discriminate; try reflexivity.
Qed.

(** ** The counters *)

Lemma counter_fires_from (net : Js.Network) (n : nat) (count : Z) :
  0 <= count <= Js.MAX_EXACT ->
  fires Examples.Counter net (replicate n tt) count
  = Z.min (count + Z.of_nat n) Js.MAX_EXACT.
Proof.
  revert count. induction n as [|n IH]; intros count Hc.
  - simpl. lia.
  - change (fires Examples.Counter net (replicate (S n) tt) count)
      with (fires Examples.Counter net (replicate n tt) (Js.add_one count)).
    rewrite IH by (apply add_one_range, Hc).
    destruct (Z.lt_ge_cases count Js.MAX_EXACT).
    + rewrite add_one_below by assumption. lia.
    + rewrite add_one_at_top by assumption. lia.
Qed.

(** X9.  After [n] clicks on its button, Counter holds [n], up to 2^53,
    where it stays: the count is the smaller of [n] and 2^53. *)
Theorem counter_after_clicks (net : Js.Network) (n : nat) :
  fires Examples.Counter net (replicate n tt) Counter.initial
  = Z.min (Z.of_nat n) Js.MAX_EXACT.
Proof.
  rewrite counter_fires_from; [reflexivity|].
  unfold Counter.initial, Js.MAX_EXACT. lia.
Qed.

(** X10.  In every reachable state of the useMemo demo [number] is 10 and
    the heading reads "Expensive Computation: 20"; [count] is between 0
    and 2^53.  The clicks never reach [number]. *)
Theorem use_memo_number_is_constant (s : UseMemo.State) :
  reachable Examples.UseMemo s ->
  UseMemo.number s = 10 /\
  UseMemo.h2 (UseMemo.WithUseMemo s) = "Expensive Computation: 20" /\
  0 <= UseMemo.count s <= Js.MAX_EXACT.
Proof.
  intros Hs.
  assert (H : UseMemo.number s = 10 /\ 0 <= UseMemo.count s <= Js.MAX_EXACT).
  { induction Hs as [|net [] s Hs [IHn IHc]].
    - split; [reflexivity | unfold Js.MAX_EXACT; simpl; lia].
    - split; [exact IHn | apply add_one_range, IHc]. }
  destruct H as [Hn Hc]. split; [exact Hn|]. split; [|exact Hc].
  unfold UseMemo.WithUseMemo, UseMemo.h2. rewrite Hn. reflexivity.
Qed.

Lemma use_memo_number_is_constant_witness :
  UseMemo.number (fire Examples.UseMemo ReduxThunk.offline tt UseMemo.initial) = 10.
Proof.
  apply (use_memo_number_is_constant _
           (reachable_fire Examples.UseMemo ReduxThunk.offline tt _
              (reachable_initial Examples.UseMemo))).
Defined.

(** ** The provider with hooks and the provider as a class *)

(** X11.  A single call of [toggleTheme] does the same with the provider
    written with hooks and with the one written as a class, and the two
    buttons show the same text and colours.  Two calls in one handler
    differ: with hooks the second call toggles what the first set, so a
    theme of {"light", "dark"} comes back; with the class both calls set
    the value computed from the rendered state, so the theme is toggled
    once. *)
Theorem toggleTheme_hooks_and_class (t : string) :
  let hooks := ThemeContext.toggleTheme (ThemeContext.ThemeProvider t) in
  let class := ClassContext.toggleTheme (ClassContext.ThemeProvider t) in
  call hooks t = call class t /\
  children (Components.ThemedButton (ThemeContext.ThemeProvider t))
  = children (ClassContext.App t) /\
  (forall name, In name ["backgroundColor"; "color"] ->
     prop name (style (Components.ThemedButton (ThemeContext.ThemeProvider t)))
     = prop name (style (ClassContext.App t))) /\
  (ThemeContext.valid t -> call (seq hooks hooks) t = t) /\
  call (seq class class) t = call class t.
Proof.
  cbv zeta. split; [reflexivity|]. split; [reflexivity|]. split; [|split].
  - intros name [<-|[<-|[]]]; reflexivity.
  - intros [-> | ->]; reflexivity.
  - reflexivity.
Qed.

Lemma toggleTheme_hooks_and_class_witness :
  call (seq (ThemeContext.toggleTheme (ThemeContext.ThemeProvider "dark"))
            (ThemeContext.toggleTheme (ThemeContext.ThemeProvider "dark"))) "dark"
  = "dark".
Proof.
  apply (toggleTheme_hooks_and_class "dark"). right. reflexivity.
Defined.

(** ** The page of the CSS demos *)

Lemma css_click_cell (c c' : CssDemos.Component) (page : CssDemos.Page) :
  CssDemos.click c page c' = if decide (c' = c) then negb (page c') else page c'.
Proof.
  unfold CssDemos.click. destruct (decide (c' = c)) as [->|]; [|reflexivity].
  destruct c; reflexivity.
Qed.

(** X12.  After any sequence of clicks on the page of the CSS demos, the
    cell of a component is its first value, negated when the component was
    clicked an odd number of times: only the number of clicks on the
    component itself counts, not their order nor the clicks on others. *)
Theorem css_cell_after_clicks
    (cs : list CssDemos.Component) (page : CssDemos.Page) (c : CssDemos.Component) :
  css_clicks cs page c
  = xorb (page c) (Nat.odd (count_occ CssDemos.Component_eq_dec cs c)).
Proof.
  revert page. induction cs as [|c0 cs IH]; intros page.
  - simpl. destruct (page c); reflexivity.
  - change (css_clicks (c0 :: cs) page) with (css_clicks cs (CssDemos.click c0 page)).
    rewrite IH, css_click_cell. simpl count_occ.
    destruct (CssDemos.Component_eq_dec c0 c) as [->|Hne].
    + rewrite decide_True by reflexivity.
      rewrite Nat.odd_succ, <- Nat.negb_odd.
      destruct (page c), (Nat.odd (count_occ CssDemos.Component_eq_dec cs c)); reflexivity.
    + rewrite decide_False by congruence. reflexivity.
Qed.

(** ** Search *)

Lemma last_after_cons {A : Type} (l : list A) (x d : A) :
  List.last (x :: l) d = List.last l x.
Proof.
  revert x d. induction l as [|y l IH]; intros x d; [reflexivity|].
  change (List.last (x :: y :: l) d) with (List.last (y :: l) d).
  rewrite (IH y d), (IH y x). reflexivity.
Qed.

(** X13.  After any sequence of changes of the input, [query] is the text
    of the last one (and the first value when there was none). *)
Theorem search_query_is_last_typed
    (net : Js.Network) (typed : list string) (query : string) :
  fires Examples.Search net typed query = List.last typed query.
Proof.
  revert query. induction typed as [|v typed IH]; intros query; [reflexivity|].
  change (fires Examples.Search net (v :: typed) query)
    with (fires Examples.Search net typed v).
  rewrite IH. symmetry. apply last_after_cons.
Qed.

(** ** Styling through refs *)

(** X14.  [changeStyle] is idempotent and does nothing while the ref is
    empty; on an element it leaves the class list alone and the four
    properties it assigns read back as assigned. *)
Theorem changeStyle_idempotent_sets_four (current : option RefStyling.element) :
  RefStyling.changeStyle None = None /\
  RefStyling.changeStyle (RefStyling.changeStyle current)
  = RefStyling.changeStyle current /\
  (forall div, current = Some div ->
   exists div', RefStyling.changeStyle current = Some div' /\
     RefStyling.classList div' = RefStyling.classList div /\
     RefStyling.inline div' !! "backgroundColor" = Some "lightblue" /\
     RefStyling.inline div' !! "color" = Some "white" /\
     RefStyling.inline div' !! "padding" = Some "20px" /\
     RefStyling.inline div' !! "borderRadius" = Some "10px").
Proof.
  split; [reflexivity|]. split.
  - destruct current as [div|]; [|reflexivity]. simpl. f_equal. f_equal.
    apply map_eq. intros k. rewrite !lookup_insert. repeat case_decide; reflexivity.
  - intros div ->. eexists. split; [reflexivity|]. split; [reflexivity|].
    simpl. rewrite !lookup_insert. repeat split; repeat case_decide; congruence.
Qed.

Lemma changeStyle_idempotent_sets_four_witness :
  exists div', RefStyling.changeStyle (Some RefStyling.styled_div) = Some div' /\
    RefStyling.inline div' !! "padding" = Some "20px".
Proof.
  destruct (proj2 (proj2 (changeStyle_idempotent_sets_four (Some RefStyling.styled_div)))
              RefStyling.styled_div eq_refl) as (div' & Heq & _ & _ & _ & Hp & _).
  exists div'. split; [exact Heq | exact Hp].
Defined.

Lemma filter_keeps_all (token : string) (tokens : list string) :
  token ∉ tokens -> filter (fun t => t ≠ token) tokens = tokens.
Proof.
  induction tokens as [|t tokens IH]; intros Hnot; [reflexivity|].
  rewrite not_elem_of_cons in Hnot. destruct Hnot as [Hne Hnot].
  rewrite filter_cons_True by congruence. rewrite IH by exact Hnot. reflexivity.
Qed.

Lemma toggle_present (token : string) (tokens : list string) :
  token ∈ tokens ->
  RefStyling.toggle token tokens = filter (fun t => t ≠ token) tokens.
Proof.
  intros H. unfold RefStyling.toggle. rewrite bool_decide_eq_true_2 by exact H.
  reflexivity.
Qed.

Lemma toggle_absent (token : string) (tokens : list string) :
  token ∉ tokens -> RefStyling.toggle token tokens = (tokens ++ [token])%list.
Proof.
  intros H. unfold RefStyling.toggle. rewrite bool_decide_eq_false_2 by exact H.
  reflexivity.
Qed.

(** X15.  [classList.toggle] twice gives the class list back: the same
    tokens, without repetition, and the very same list when the token was
    absent at first (a token that was present moves to the end).  The
    other tokens are never touched. *)
Theorem toggle_twice_restores (token : string) (tokens : list string) :
  NoDup tokens ->
  NoDup (RefStyling.toggle token tokens) /\
  RefStyling.toggle token (RefStyling.toggle token tokens) ≡ₚ tokens /\
  (token ∉ tokens -> RefStyling.toggle token (RefStyling.toggle token tokens) = tokens) /\
  (forall t, t ≠ token -> t ∈ RefStyling.toggle token tokens <-> t ∈ tokens).
Proof.
  intros Hnd. destruct (decide (token ∈ tokens)) as [Hin|Hin].
  - assert (Hout : token ∉ filter (fun t => t ≠ token) tokens).
    { rewrite list_elem_of_filter. intros [Hne _]. congruence. }
    assert (Hndf : NoDup (filter (fun t => t ≠ token) tokens)) by (apply NoDup_filter, Hnd).
    rewrite (toggle_present _ _ Hin), (toggle_absent _ _ Hout).
    split; [exact Hndf|]. split; [|split].
    + apply NoDup_Permutation; [|exact Hnd|].
      * apply NoDup_app. split; [exact Hndf|]. split; [|apply NoDup_singleton].
        intros x Hx Hx'. apply list_elem_of_singleton in Hx'. subst. contradiction.
      * intros x. rewrite elem_of_app, list_elem_of_filter, list_elem_of_singleton.
        destruct (decide (x = token)) as [->|Hne]; tauto.
    + intros Hnot. contradiction.
    + intros t Hne. rewrite list_elem_of_filter. tauto.
  - assert (Hthere : token ∈ (tokens ++ [token])%list).
    { apply elem_of_app. right. apply list_elem_of_singleton. reflexivity. }
    rewrite (toggle_absent _ _ Hin), (toggle_present _ _ Hthere).
    assert (Hback : filter (fun t => t ≠ token) (tokens ++ [token])%list = tokens).
    { rewrite filter_app, filter_keeps_all by exact Hin.
      rewrite filter_cons_False by (intros H; apply H; reflexivity).
      rewrite filter_nil. apply app_nil_r. }
    split; [|split; [|split]].
    + apply NoDup_app. split; [exact Hnd|]. split; [|apply NoDup_singleton].
      intros x Hx Hx'. apply list_elem_of_singleton in Hx'. subst. contradiction.
    + rewrite Hback. reflexivity.
    + intros _. exact Hback.
    + intros t Hne. rewrite elem_of_app, list_elem_of_singleton. tauto.
Qed.

Lemma toggle_twice_restores_witness :
  RefStyling.toggle "active" (RefStyling.toggle "active" (RefStyling.classList RefStyling.box))
  = RefStyling.classList RefStyling.box.
Proof.
  apply (toggle_twice_restores "active" ["box"]).
  - apply NoDup_singleton.
  - intros H. apply list_elem_of_singleton in H. discriminate.
Defined.

(** ** Timer *)

Section TimerFacts.

Import Timer.

Lemma handle_one_interval (e : Event) (s : State) :
  one_interval s -> one_interval (handle e s).
Proof.
  unfold one_interval. destruct s as [t r i n]. simpl. intros ->.
  destruct e as [| |id]; simpl.
  - unfold startTimer. destruct r; simpl; [reflexivity | apply union_empty_r_L].
  - destruct r; simpl; [apply difference_diag_L | reflexivity].
  - destruct (bool_decide _); reflexivity.
Qed.

Lemma handle_all_one_interval (es : list Event) (s : State) :
  one_interval s -> one_interval (handle_all es s).
Proof.
  revert s. induction es as [|e es IH]; intros s Hs; [exact Hs|].
  apply (IH (handle e s)), handle_one_interval, Hs.
Qed.

Lemma handle_all_app (es es' : list Event) (s : State) :
  handle_all (es ++ es') s = handle_all es' (handle_all es s).
Proof. unfold handle_all. apply fold_left_app. Qed.

End TimerFacts.

(** X16.  Whatever the clicks and the seconds that elapse, Timer has at
    most one interval set, the one [timerRef] holds: a click on Start
    while the timer runs sets no second interval. *)
Theorem timer_has_one_interval (es : list Timer.Event) :
  let s := Timer.handle_all es Timer.initial in
  Timer.intervals s
  = match Timer.timerRef s with Some id => {[ id ]} | None => ∅ end /\
  (size (Timer.intervals s) <= 1)%nat.
Proof.
  cbv zeta.
  assert (H : Timer.one_interval (Timer.handle_all es Timer.initial)).
  { apply handle_all_one_interval. reflexivity. }
  split; [exact H|]. rewrite H.
  destruct (Timer.timerRef _); [rewrite size_singleton | rewrite size_empty]; lia.
Qed.

(** X17.  Stop stops the timer: after a click on Stop, however the timer
    was used before, no second that elapses on any interval changes
    [time], until Start is clicked again. *)
Theorem timer_stop_stops (es : list Timer.Event) (ids : list positive) :
  let stopped := Timer.handle_all (es ++ [Timer.ClickStop]) Timer.initial in
  Timer.handle_all (Timer.Elapsed <$> ids) stopped = stopped.
Proof.
  cbv zeta. rewrite handle_all_app.
  set (s := Timer.handle_all es Timer.initial).
  assert (Hs : Timer.one_interval s) by (apply handle_all_one_interval; reflexivity).
  assert (Hempty : Timer.intervals (Timer.handle_all [Timer.ClickStop] s) = ∅).
  { apply (handle_one_interval Timer.ClickStop) in Hs. exact Hs. }
  revert Hempty. generalize (Timer.handle_all [Timer.ClickStop] s). clear.
  intros s Hs. induction ids as [|id ids IH]; [reflexivity|].
  simpl. unfold Timer.handle_all in *. simpl.
  rewrite bool_decide_eq_false_2 by (rewrite Hs; apply not_elem_of_empty). exact IH.
Qed.

(** ** What memoisation saves *)

Section Memoisation.

Import Hooks.

Lemma written_app (line : string) (console lines : list string) :
  written line (console ++ lines) = (written line console + written line lines)%nat.
Proof. apply count_occ_app. Qed.

Lemma add_one_changes (n : Z) : n < Js.MAX_EXACT -> (Js.add_one n =? n) = false.
Proof. intros H. rewrite add_one_below by exact H. apply Z.eqb_neq. lia. Qed.

Lemma memo_kept_clicks (n : nat) :
  memo_kept (MemoDemo.clicks MemoDemo.WithUseMemo n).
Proof.
  induction n as [|n IH]; [repeat split|].
  unfold MemoDemo.clicks in *. simpl Nat.iter.
  set (i := Nat.iter n _ _) in *. destruct IH as (Hn & Hc & Hv & Hw).
  unfold MemoDemo.click. destruct (_ =? _); [repeat split; assumption|].
  unfold memo_kept, MemoDemo.WithUseMemo, useMemo. cbn [UseMemo.number UseMemo.setCount].
  rewrite Hn, Hc. cbn. rewrite app_nil_r. repeat split; assumption.
Qed.

Lemma plain_recomputed_clicks (n : nat) :
  Z.of_nat n <= Js.MAX_EXACT ->
  plain_recomputed n (MemoDemo.clicks MemoDemo.WithoutUseMemo n).
Proof.
  induction n as [|n IH]; intros Hn; [repeat split|].
  unfold MemoDemo.clicks in *. simpl Nat.iter.
  set (i := Nat.iter n _ _) in *. destruct IH as (Hnum & Hc & Hv & Hw); [lia|].
  unfold MemoDemo.click. rewrite Hc.
  rewrite add_one_changes, add_one_below by lia.
  unfold plain_recomputed, MemoDemo.WithoutUseMemo, MemoDemo.expensiveCalculation.
  cbn [UseMemo.number UseMemo.setCount UseMemo.count MemoDemo.state
       MemoDemo.console MemoDemo.computedValue].
  rewrite Hnum, written_app, Hw.
  replace (written "Computing..." ["Computing..."]) with 1%nat by reflexivity.
  repeat split; try reflexivity; lia.
Qed.

End Memoisation.

(** X18.  [WithUseMemo] and [WithoutUseMemo] show the same computed value
    after any number of clicks.  With [useMemo] "Computing..." is written
    once, at the first render; without it, it is written at every render,
    [n + 1] times after [n] clicks (as long as the count can grow, up to
    2^53 clicks). *)
Theorem useMemo_computes_once (n : nat) :
  MemoDemo.computedValue (MemoDemo.clicks MemoDemo.WithUseMemo n) = 20 /\
  Hooks.written "Computing..."
    (MemoDemo.console (MemoDemo.clicks MemoDemo.WithUseMemo n)) = 1%nat /\
  (Z.of_nat n <= Js.MAX_EXACT ->
   MemoDemo.computedValue (MemoDemo.clicks MemoDemo.WithoutUseMemo n) = 20 /\
   Hooks.written "Computing..."
     (MemoDemo.console (MemoDemo.clicks MemoDemo.WithoutUseMemo n)) = S n).
Proof.
  destruct (memo_kept_clicks n) as (_ & _ & Hv & Hw).
  split; [exact Hv|]. split; [exact Hw|].
  intros Hn. destruct (plain_recomputed_clicks n Hn) as (_ & _ & Hv' & Hw').
  split; assumption.
Qed.

Lemma useMemo_computes_once_witness :
  Hooks.written "Computing..."
    (MemoDemo.console (MemoDemo.clicks MemoDemo.WithoutUseMemo 3)) = 4%nat.
Proof.
  apply (useMemo_computes_once 3). unfold Js.MAX_EXACT. simpl. lia.
Defined.

Section ChildRenders.

Import Hooks CallbackDemo.

Lemma child_once_click (b : Examples.ParentButton) (i : Instance) :
  child_once i -> child_once (click Parent_callback b i).
Proof.
  intros (Hk & Hp & Hw). destruct b; unfold click.
  - destruct (_ =? _); [repeat split; assumption|].
    unfold child_once, Parent_callback, useCallback, Child, memo.
    rewrite Hk, Hp. cbn. rewrite app_nil_r. repeat split; assumption.
  - unfold child_once. cbn [kept child_props console]. rewrite written_app, Hw.
    repeat split; assumption.
Qed.

Lemma child_once_clicks (bs : list Examples.ParentButton) (i : Instance) :
  child_once i -> child_once (fold_left (fun i b => click Parent_callback b i) bs i).
Proof.
  revert i. induction bs as [|b bs IH]; intros i Hi; [exact Hi|].
  apply IH, child_once_click, Hi.
Qed.

Lemma child_every_render_clicks (bs : list Examples.ParentButton) (k : nat) (i : Instance) :
  child_every_render k i ->
  Z.of_nat (k + increments bs) <= Js.MAX_EXACT ->
  child_every_render (k + increments bs)
    (fold_left (fun i b => click Parent_plain b i) bs i).
Proof.
  revert k i. induction bs as [|b bs IH]; intros k i Hi Hk.
  - simpl. rewrite Nat.add_0_r. exact Hi.
  - destruct Hi as (Hc & Hr & Hp & Hw). destruct b; simpl fold_left; simpl increments in *.
    + replace (k + S (increments bs))%nat with (S k + increments bs)%nat in * by lia.
      apply IH; [|exact Hk].
      unfold click. rewrite Hc, add_one_changes, add_one_below by lia.
      unfold child_every_render, Parent_plain, Child, memo. rewrite Hr, Hp.
      replace (k =? S k)%nat with false by (symmetry; apply Nat.eqb_neq; lia).
      cbn [count renders child_props console]. rewrite written_app, Hw.
      replace (written "Child re-rendered!" ["Child re-rendered!"]) with 1%nat
        by reflexivity.
      repeat split; lia.
    + apply IH; [|exact Hk].
      unfold child_every_render. cbn [count renders child_props console].
      rewrite written_app, Hw.
      replace (written "Child re-rendered!" ["Button clicked!"]) with 0%nat
        by reflexivity.
      repeat split; try assumption; lia.
Qed.

Lemma count_whatever_the_render (bs : list Examples.ParentButton) (i j : Instance) :
  count i = count j ->
  count (fold_left (fun i b => click Parent_plain b i) bs i)
  = count (fold_left (fun i b => click Parent_callback b i) bs j).
Proof.
  revert i j. induction bs as [|b bs IH]; intros i j Hij; [exact Hij|].
  simpl. apply IH. destruct b; unfold click; rewrite Hij.
  - destruct (_ =? _); [exact Hij|].
    unfold Parent_plain, Parent_callback.
    destruct (Child (child_props i) (renders i)).
    destruct (useCallback (renders j) (kept j)) as [f c].
    destruct (Child (child_props j) f). reflexivity.
  - reflexivity.
Qed.

End ChildRenders.

(** X19.  With [useCallback], [Child] renders once, at the first render of
    [Parent], whatever is clicked afterwards.  Without it, [Child] renders
    with every render of [Parent]: once more than there were clicks on
    [Increment] (as long as the count can grow).  The count is the same
    with and without. *)
Theorem useCallback_spares_child (bs : list Examples.ParentButton) :
  Hooks.written "Child re-rendered!"
    (CallbackDemo.console (CallbackDemo.clicks CallbackDemo.Parent_callback bs)) = 1%nat /\
  CallbackDemo.count (CallbackDemo.clicks CallbackDemo.Parent_plain bs)
  = CallbackDemo.count (CallbackDemo.clicks CallbackDemo.Parent_callback bs) /\
  (Z.of_nat (increments bs) <= Js.MAX_EXACT ->
   Hooks.written "Child re-rendered!"
     (CallbackDemo.console (CallbackDemo.clicks CallbackDemo.Parent_plain bs))
   = S (increments bs)).
Proof.
  split; [|split].
  - apply child_once_clicks. repeat split.
  - apply count_whatever_the_render. reflexivity.
  - intros Hn.
    apply (child_every_render_clicks bs 0 (CallbackDemo.mount CallbackDemo.Parent_plain)).
    + repeat split.
    + exact Hn.
Qed.

Lemma useCallback_spares_child_witness :
  Hooks.written "Child re-rendered!"
    (CallbackDemo.console
       (CallbackDemo.clicks CallbackDemo.Parent_plain
          [Examples.Increment; Examples.ClickMe; Examples.Increment]))
  = 3%nat.
Proof.
  apply (useCallback_spares_child [Examples.Increment; Examples.ClickMe; Examples.Increment]).
  unfold Js.MAX_EXACT. simpl. lia.
Defined.

Lemma greeted_once_click (i : GreetingDemo.Instance) :
  greeted_once i -> greeted_once (GreetingDemo.click i).
Proof.
  intros (Hp & Hw). unfold GreetingDemo.click.
  destruct (_ =? _); [split; assumption|].
  unfold greeted_once, GreetingDemo.App, GreetingDemo.Greeting, Hooks.memo.
  rewrite Hp. cbn. rewrite app_nil_r. split; [reflexivity | exact Hw].
Qed.

(** X20.  In the [App] of the reconciliation note, [Greeting] renders once:
    however often [Increment] is clicked, "Greeting component re-rendered"
    is written a single time. *)
Theorem greeting_renders_once (n : nat) :
  Hooks.written "Greeting component re-rendered"
    (GreetingDemo.console (Nat.iter n GreetingDemo.click GreetingDemo.mount)) = 1%nat.
Proof.
  assert (H : greeted_once (Nat.iter n GreetingDemo.click GreetingDemo.mount)).
  { induction n as [|n IH]; [split; reflexivity|].
    simpl. apply greeted_once_click, IH. }
  apply H.
Qed.

(** ** Filtering the users *)

Section Filtering.

Import UserFilter.

Lemma str_app_assoc (a b c : string) : (a +:+ b) +:+ c = a +:+ (b +:+ c).
Proof.
  induction a as [|x a IH]; [reflexivity|].
  change (String.String x ((a +:+ b) +:+ c) = String.String x (a +:+ (b +:+ c))).
  rewrite IH. reflexivity.
Qed.

Lemma toLowerCase_app (a b : string) :
  toLowerCase (a +:+ b) = toLowerCase a +:+ toLowerCase b.
Proof.
  induction a as [|x a IH]; [reflexivity|].
  change (String.String (lower_char x) (toLowerCase (a +:+ b))
          = String.String (lower_char x) (toLowerCase a +:+ toLowerCase b)).
  rewrite IH. reflexivity.
Qed.

Lemma starts_with_spec (s sub : string) :
  starts_with s sub = true <-> exists post, s = sub +:+ post.
Proof.
  revert s. induction sub as [|c sub IH]; intros s.
  - split; [intros _; exists s; reflexivity | intros _; destruct s; reflexivity].
  - destruct s as [|d s]; simpl.
    + split; [discriminate | intros [post H]; discriminate].
    + rewrite andb_true_iff, Ascii.eqb_eq, IH. split.
      * intros [-> [post ->]]. exists post. reflexivity.
      * intros [post H]. injection H as -> ->. split; [reflexivity | eauto].
Qed.

Lemma includes_spec (s sub : string) :
  includes s sub = true <-> exists pre post, s = pre +:+ sub +:+ post.
Proof.
  induction s as [|d s IH].
  - change (includes "" sub) with (starts_with "" sub || false).
    rewrite orb_false_r, starts_with_spec. split.
    + intros [post H]. exists "", post. exact H.
    + intros (pre & post & H). destruct pre; [eauto | discriminate].
  - change (includes (String.String d s) sub)
      with (starts_with (String.String d s) sub || includes s sub).
    rewrite orb_true_iff, starts_with_spec, IH. split.
    + intros [[post H] | (pre & post & ->)].
      * exists "", post. exact H.
      * exists (String.String d pre), post. reflexivity.
    + intros (pre & post & H). destruct pre as [|x pre].
      * left. exists post. exact H.
      * right. injection H as -> ->. eauto.
Qed.

Lemma includes_empty (s : string) : includes s "" = true.
Proof. destruct s; reflexivity. Qed.

Lemma includes_inner (s pre sub post : string) :
  includes s (pre +:+ sub +:+ post) = true -> includes s sub = true.
Proof.
  rewrite !includes_spec. intros (a & b & ->).
  exists (a +:+ pre), (post +:+ b). rewrite !str_app_assoc. reflexivity.
Qed.

Lemma filter_narrows_list {A : Type} (P Q : A -> bool) (l : list A) :
  (forall x, P x = true -> Q x = true) ->
  sublist (List.filter P l) (List.filter Q l).
Proof.
  intros HPQ. induction l as [|x l IH]; simpl; [constructor|].
  destruct (P x) eqn:HP.
  - rewrite (HPQ x HP). apply sublist_skip, IH.
  - destruct (Q x); [apply sublist_cons, IH | exact IH].
Qed.

Lemma filter_bool_sublist {A : Type} (P : A -> bool) (l : list A) :
  sublist (List.filter P l) l.
Proof.
  induction l as [|x l IH]; simpl; [constructor|].
  destruct (P x); [apply sublist_skip, IH | apply sublist_cons, IH].
Qed.

Lemma filter_bool_all {A : Type} (P : A -> bool) (l : list A) :
  (forall x, P x = true) -> List.filter P l = l.
Proof.
  intros HP. induction l as [|x l IH]; simpl; [reflexivity|].
  rewrite HP, IH. reflexivity.
Qed.

End Filtering.

(** X21.  On ASCII text: the empty query keeps every user; the users kept
    are always among [users], in their order; and a longer query never
    brings a user back: the users kept for a query that contains [query]
    are among those kept for [query]. *)
Theorem filteredUsers_narrows (pre query post : string) :
  UserFilter.ascii_only pre = true ->
  UserFilter.ascii_only query = true ->
  UserFilter.ascii_only post = true ->
  UserFilter.filteredUsers "" = UserFilter.users /\
  sublist (UserFilter.filteredUsers query) UserFilter.users /\
  sublist (UserFilter.filteredUsers (pre +:+ query +:+ post))
          (UserFilter.filteredUsers query).
Proof.
  intros _ _ _. split; [|split].
  - apply filter_bool_all. intros user. apply includes_empty.
  - apply filter_bool_sublist.
  - apply filter_narrows_list. intros user.
    rewrite !toLowerCase_app. apply includes_inner.
Qed.

Lemma filteredUsers_narrows_witness :
  sublist (UserFilter.filteredUsers "Char") (UserFilter.filteredUsers "ha").
Proof.
  apply (filteredUsers_narrows "C" "ha" "r"); reflexivity.
Defined.

Section FilterMemo.

Import Hooks UserFilter.

Lemma cell_fresh_change (value : string) (i : Instance) :
  cell_fresh i -> cell_fresh (change WithUseMemo value i).
Proof.
  intros (Hc & Hs & Hw). unfold change.
  destruct (String.eqb value (query i)) eqn:Hv; [repeat split; assumption|].
  unfold cell_fresh, WithUseMemo, useMemo. rewrite Hc.
  rewrite String.eqb_sym, Hv. cbn [query cell shown console renders].
  rewrite written_app, Hw.
  replace (written "Filtering..." ["Filtering..."]) with 1%nat by reflexivity.
  repeat split; lia.
Qed.

Lemma memo_and_plain (typed : list string) (i j : Instance) :
  cell_fresh i ->
  shown j = items (filteredUsers (query j)) ->
  query i = query j ->
  renders i = renders j ->
  let i' := fold_left (fun i value => change WithUseMemo value i) typed i in
  let j' := fold_left (fun i value => change WithoutUseMemo value i) typed j in
  cell_fresh i' /\ shown i' = shown j' /\ query i' = query j' /\ renders i' = renders j'.
Proof.
  revert i j. induction typed as [|value typed IH]; intros i j Hi Hj Hq Hr.
  - cbv zeta. simpl. destruct Hi as (Hc & Hs & Hw).
    repeat split; try assumption. congruence.
  - simpl. apply IH.
    + apply cell_fresh_change, Hi.
    + unfold change. destruct (String.eqb value (query j)); [exact Hj | reflexivity].
    + unfold change. rewrite Hq.
      destruct (String.eqb value (query j)); [exact Hq|].
      unfold WithUseMemo.
      destruct (useMemo _ _ _ _) as [[f c] l]. reflexivity.
    + unfold change. rewrite Hq.
      destruct (String.eqb value (query j)); [exact Hr|].
      unfold WithUseMemo.
      destruct (useMemo _ _ _ _) as [[f c] l]. simpl. congruence.
Qed.

End FilterMemo.

(** X22.  On ASCII text, after any changes of the input [WithUseMemo]
    shows the list [WithoutUseMemo] shows, the users kept for the current
    query: the memoised list is never stale.  And the memo never hits:
    every render follows a change of the query, so "Filtering..." is
    written at every render. *)
Theorem filter_memo_fresh_never_hits (typed : list string) :
  Forall (fun value => UserFilter.ascii_only value = true) typed ->
  let memoised := UserFilter.changes UserFilter.WithUseMemo typed in
  let plain := UserFilter.changes UserFilter.WithoutUseMemo typed in
  UserFilter.shown memoised = UserFilter.shown plain /\
  UserFilter.shown memoised
  = UserFilter.items (UserFilter.filteredUsers (UserFilter.query memoised)) /\
  Hooks.written "Filtering..." (UserFilter.console memoised)
  = UserFilter.renders memoised /\
  UserFilter.renders memoised = UserFilter.renders plain.
Proof.
  intros _. cbv zeta.
  destruct (memo_and_plain typed
              (UserFilter.mount UserFilter.WithUseMemo)
              (UserFilter.mount UserFilter.WithoutUseMemo))
    as ((_ & Hs & Hw) & Hsame & _ & Hr); try reflexivity.
  { repeat split. }
  repeat split; assumption.
Qed.

Lemma filter_memo_fresh_never_hits_witness :
  Hooks.written "Filtering..."
    (UserFilter.console (UserFilter.changes UserFilter.WithUseMemo ["a"; "al"; "a"]))
  = UserFilter.renders (UserFilter.changes UserFilter.WithUseMemo ["a"; "al"; "a"]).
Proof.
  apply (filter_memo_fresh_never_hits ["a"; "al"; "a"]).
  repeat constructor.
Defined.

(** ** Refs across renders *)

(** X23.  PreviousStateExample shows, beside the count, the count of the
    render before: after [n] clicks (up to 2^53) the screen shows [n] and
    [n - 1], and 0 and 0 before the first click. *)
Theorem previous_count_lags_by_one (n : nat) :
  Z.of_nat n <= Js.MAX_EXACT ->
  PreviousState.shown (Nat.iter n PreviousState.click PreviousState.mount)
  = (Z.of_nat n, Z.max 0 (Z.of_nat n - 1)).
Proof.
  intros Hn.
  assert (H : exists i, i = Nat.iter n PreviousState.click PreviousState.mount /\
              PreviousState.count i = Z.of_nat n /\
              PreviousState.prevCountRef i = Z.of_nat n /\
              PreviousState.effect_dep i = Some (Z.of_nat n) /\
              PreviousState.shown i = (Z.of_nat n, Z.max 0 (Z.of_nat n - 1))).
  { induction n as [|n IH]; [eexists; repeat split|].
    destruct IH as (i & Hi & Hc & Hp & Hd & Hs); [lia|].
    exists (PreviousState.click i). split; [rewrite Hi; reflexivity|].
    unfold PreviousState.click. rewrite Hc, add_one_changes, add_one_below by lia.
    unfold PreviousState.PreviousStateExample. rewrite Hp, Hd.
    replace (Z.of_nat n =? Z.of_nat n + 1) with false by (symmetry; apply Z.eqb_neq; lia).
    cbn [negb PreviousState.count PreviousState.prevCountRef
         PreviousState.effect_dep PreviousState.shown].
    repeat split; try (f_equal; lia). }
  destruct H as (i & -> & _ & _ & _ & Hs). exact Hs.
Qed.

Lemma previous_count_lags_by_one_witness :
  PreviousState.shown (Nat.iter 3 PreviousState.click PreviousState.mount) = (3, 2).
Proof.
  apply (previous_count_lags_by_one 3). unfold Js.MAX_EXACT. simpl. lia.
Defined.

(** X24.  RenderCounter shows the number of the render: after [n] clicks
    (below 2^53) "Component Rendered" shows [n + 1]. *)
Theorem render_counter_counts_renders (n : nat) :
  Z.of_nat n + 1 < Js.MAX_EXACT ->
  RenderCounter.shown (Nat.iter n RenderCounter.click RenderCounter.mount)
  = Z.of_nat n + 1.
Proof.
  intros Hn.
  assert (H : exists i, i = Nat.iter n RenderCounter.click RenderCounter.mount /\
              RenderCounter.count i = Z.of_nat n /\
              RenderCounter.renderCount i = Z.of_nat n + 2 /\
              RenderCounter.shown i = Z.of_nat n + 1).
  { induction n as [|n IH]; [eexists; repeat split|].
    destruct IH as (i & Hi & Hc & Hr & Hs); [lia|].
    exists (RenderCounter.click i). split; [rewrite Hi; reflexivity|].
    unfold RenderCounter.click. rewrite Hc, add_one_changes, add_one_below by lia.
    unfold RenderCounter.RenderCounter. rewrite Hr, add_one_below by lia.
    cbn [RenderCounter.count RenderCounter.renderCount RenderCounter.shown].
    repeat split; lia. }
  destruct H as (i & -> & _ & _ & Hs). exact Hs.
Qed.

Lemma render_counter_counts_renders_witness :
  RenderCounter.shown (Nat.iter 3 RenderCounter.click RenderCounter.mount) = 4.
Proof.
  apply (render_counter_counts_renders 3). unfold Js.MAX_EXACT. simpl. lia.
Defined.

(** ** ControlledForm *)

Lemma form_change_lookup (formData : gmap string string)
    (e : ControlledForm.Input * string) (input : ControlledForm.Input) :
  ControlledForm.value_of (ControlledForm.change formData e) input
  = if decide (fst e = input) then Some (snd e)
    else ControlledForm.value_of formData input.
Proof.
  destruct e as [target value]. unfold ControlledForm.value_of, ControlledForm.change.
  cbn [fst snd]. unfold ControlledForm.handleChange, call. cbn.
  rewrite lookup_insert. destruct target, input; reflexivity.
Qed.

(** X25.  After any sequence of changes, each input of ControlledForm
    holds the last text typed into it (the empty string when nothing was
    typed into it): a change of one input never loses the text of the
    other. *)
Theorem form_holds_last_typed
    (es : list (ControlledForm.Input * string)) (input : ControlledForm.Input) :
  ControlledForm.value_of (ControlledForm.changes es) input
  = Some (ControlledForm.last_typed input es "").
Proof.
  unfold ControlledForm.changes.
  assert (H : forall es formData d,
             ControlledForm.value_of formData input = Some d ->
             ControlledForm.value_of (fold_left ControlledForm.change es formData) input
             = Some (ControlledForm.last_typed input es d)).
  { clear es. induction es as [|[target value] es IH]; intros formData d Hd; [exact Hd|].
    simpl. apply IH. rewrite form_change_lookup. cbn [fst snd].
    destruct (decide (target = input)); [reflexivity | exact Hd]. }
  apply H. destruct input; reflexivity.
Qed.
